(** * jnd_vps: the draw ingestion pipeline, embedded and verified

    A shallow embedding of the TypeScript sources of the pipeline
    (lottery-analyzer, validator, issue-tracker, parser, playnow-keno,
    prediction writer, omission-data, lottery writer) together with the
    JavaScript primitives those sources rely on.

    Conventions of the embedding.
    - A JavaScript string is a Rocq [string] holding its UTF-8 bytes; the
      sources only ever look at ASCII characters (digits, separators) and
      at white space, whose multi-byte forms are spelled out below.
    - A JavaScript number is [NaN] or an integer [Int z].  Doubles are exact
      on integers below 2^53 and every number the pipeline handles (digits,
      sums, issue numbers, counters) is far below that; fractions,
      infinities and the sign of zero are not represented.
    - A value that can be [undefined] is an [option]; JSON input is [jsval].
    - State is passed explicitly; what the outside world decides (database
      and cache outcomes, the clock) is an oracle argument. *)

From Stdlib Require Import ZArith Lia Bool Ascii.
From stdpp Require Import base option list strings pretty gmap.

Local Open Scope Z_scope.

(** ** JavaScript primitives *)

Module Js.

(** *** Numbers *)

Inductive jsnum : Type :=
| NaN
| Int (z : Z).

Definition num_add (a b : jsnum) : jsnum :=
  match a, b with Int x, Int y => Int (x + y) | _, _ => NaN end.

Definition num_sub (a b : jsnum) : jsnum :=
  match a, b with Int x, Int y => Int (x - y) | _, _ => NaN end.

(** [%] truncates toward zero: the sign of the result is the dividend's. *)
Definition num_rem (a b : jsnum) : jsnum :=
  match a, b with
  | Int x, Int y => if y =? 0 then NaN else Int (Z.rem x y)
  | _, _ => NaN
  end.

(** [===] on numbers: [NaN] equals nothing, itself included. *)
Definition num_eq (a b : jsnum) : bool :=
  match a, b with Int x, Int y => x =? y | _, _ => false end.

Definition num_lt (a b : jsnum) : bool :=
  match a, b with Int x, Int y => x <? y | _, _ => false end.

Definition num_le (a b : jsnum) : bool :=
  match a, b with Int x, Int y => x <=? y | _, _ => false end.

Definition num_gt (a b : jsnum) : bool := num_lt b a.
Definition num_ge (a b : jsnum) : bool := num_le b a.

(** A possibly-[undefined] number, as array destructuring yields it. *)
Definition to_num (v : option jsnum) : jsnum :=
  match v with Some n => n | None => NaN end.

(** [===] where either side may be [undefined]. *)
Definition val_eq (a b : option jsnum) : bool :=
  match a, b with
  | None, None => true
  | Some x, Some y => num_eq x y
  | _, _ => false
  end.

(** Number::toString for the integers of the model. *)
Definition num_to_string (n : jsnum) : string :=
  match n with NaN => "NaN" | Int z => pretty z end.

(** *** Characters and white space *)

Definition code (c : ascii) : Z := Z.of_N (N_of_ascii c).

Definition is_digit (c : ascii) : bool :=
  (48 <=? code c) && (code c <=? 57).

(** One leading WhiteSpace or LineTerminator character, removed.
    TAB LF VT FF CR SP are single bytes; U+00A0 is C2 A0; U+1680,
    U+2000..U+200A, U+2028, U+2029, U+202F, U+205F, U+3000 and U+FEFF
    take three bytes. *)
Definition ws3 (b1 b2 b3 : Z) : bool :=
  ((b1 =? 225) && (b2 =? 154) && (b3 =? 128))
  || ((b1 =? 226) && (b2 =? 128)
      && (((128 <=? b3) && (b3 <=? 138)) || (b3 =? 168) || (b3 =? 169)
          || (b3 =? 175)))
  || ((b1 =? 226) && (b2 =? 129) && (b3 =? 159))
  || ((b1 =? 227) && (b2 =? 128) && (b3 =? 128))
  || ((b1 =? 239) && (b2 =? 187) && (b3 =? 191)).

Definition ws1 (b1 : Z) : bool :=
  ((9 <=? b1) && (b1 <=? 13)) || (b1 =? 32).

Definition ws2 (b1 b2 : Z) : bool := (b1 =? 194) && (b2 =? 160).

Definition strip_ws (s : string) : option string :=
  match s with
  | String c1 r1 =>
      if ws1 (code c1) then Some r1
      else match r1 with
           | String c2 r2 =>
               if ws2 (code c1) (code c2) then Some r2
               else match r2 with
                    | String c3 r3 =>
                        if ws3 (code c1) (code c2) (code c3)
                        then Some r3 else None
                    | EmptyString => None
                    end
           | EmptyString => None
           end
  | EmptyString => None
  end.

Fixpoint trimStart_fuel (fuel : nat) (s : string) : string :=
  match fuel with
  | O => s
  | S fuel' =>
      match strip_ws s with
      | Some r => trimStart_fuel fuel' r
      | None => s
      end
  end.

Definition trimStart (s : string) : string :=
  trimStart_fuel (String.length s) s.

Definition all_ws (s : string) : bool :=
  String.eqb (trimStart s) EmptyString.

Fixpoint trimEnd (s : string) : string :=
  match s with
  | EmptyString => EmptyString
  | String c r => if all_ws s then EmptyString else String c (trimEnd r)
  end.

(** String.prototype.trim *)
Definition trim (s : string) : string := trimEnd (trimStart s).

(** *** parseInt, called with one argument *)

Definition digit_val (radix : Z) (c : ascii) : option Z :=
  let n := code c in
  let v := if (48 <=? n) && (n <=? 57) then Some (n - 48)
           else if (97 <=? n) && (n <=? 122) then Some (n - 87)
           else if (65 <=? n) && (n <=? 90) then Some (n - 55)
           else None in
  match v with
  | Some d => if d <? radix then Some d else None
  | None => None
  end.

(** Value of the longest prefix of radix digits; [None] when it is empty. *)
Fixpoint parse_digits (radix : Z) (acc : option Z) (s : string) : option Z :=
  match s with
  | String c r =>
      match digit_val radix c with
      | Some d => parse_digits radix (Some (default 0 acc * radix + d)) r
      | None => acc
      end
  | EmptyString => acc
  end.

Definition parseInt (s : string) : jsnum :=
  let s1 := trimStart s in
  let '(sign, s2) :=
    match s1 with
    | String "-" r => (-1, r)
    | String "+" r => (1, r)
    | _ => (1, s1)
    end in
  let '(radix, s3) :=
    match s2 with
    | String "0" (String "x" r) => (16, r)
    | String "0" (String "X" r) => (16, r)
    | _ => (10, s2)
    end in
  match parse_digits radix None s3 with
  | Some m => Int (sign * m)
  | None => NaN
  end.

(** *** String helpers *)

(** [s.split(sep)] for a one-character separator. *)
Fixpoint split_on (sep : ascii) (s : string) : list string :=
  match s with
  | EmptyString => [EmptyString]
  | String c r =>
      if Ascii.eqb c sep then EmptyString :: split_on sep r
      else match split_on sep r with
           | p :: ps => String c p :: ps
           | [] => [String c EmptyString]
           end
  end.

Fixpoint repeat_char (n : nat) (c : ascii) : string :=
  match n with O => EmptyString | S n' => String c (repeat_char n' c) end.

(** The one-character string holding a double quote. *)
Definition dquote : string := String (ascii_of_N 34) EmptyString.

(** [s.padStart(n, c)] for a one-character filler. *)
Definition padStart (n : nat) (c : ascii) (s : string) : string :=
  repeat_char (n - String.length s) c +:+ s.

(** [Array.prototype.join] on strings. *)
Fixpoint join (sep : string) (l : list string) : string :=
  match l with
  | [] => EmptyString
  | [x] => x
  | x :: r => x +:+ sep +:+ join sep r
  end.

(** [[...xs].sort((x, y) => x - y)]: a stable insertion sort driven by the
    sign of the comparator.  The comparator is a consistent order exactly
    when no element is [NaN]; ECMAScript leaves the order open otherwise. *)
Fixpoint sort_insert (x : jsnum) (l : list jsnum) : list jsnum :=
  match l with
  | [] => [x]
  | y :: r =>
      if num_gt (num_sub x y) (Int 0) then y :: sort_insert x r
      else x :: y :: r
  end.

Definition sort_numeric (l : list jsnum) : list jsnum :=
  foldr sort_insert [] l.

End Js.

(** ** Regular expressions, matched by derivatives

    [matches r s] is [/^r$/.test(s)]: without the [m] flag the anchors pin
    the match to the whole input. *)

Module Regex.

Inductive re : Type :=
| Zero
| Eps
| Sym (p : ascii -> bool)
| Cat (r s : re)
| Alt (r s : re)
| Star (r : re).

Fixpoint nullable (r : re) : bool :=
  match r with
  | Zero => false
  | Eps => true
  | Sym _ => false
  | Cat r1 r2 => nullable r1 && nullable r2
  | Alt r1 r2 => nullable r1 || nullable r2
  | Star _ => true
  end.

Fixpoint deriv (c : ascii) (r : re) : re :=
  match r with
  | Zero => Zero
  | Eps => Zero
  | Sym p => if p c then Eps else Zero
  | Cat r1 r2 =>
      if nullable r1 then Alt (Cat (deriv c r1) r2) (deriv c r2)
      else Cat (deriv c r1) r2
  | Alt r1 r2 => Alt (deriv c r1) (deriv c r2)
  | Star r1 => Cat (deriv c r1) (Star r1)
  end.

Fixpoint matches (r : re) (s : string) : bool :=
  match s with
  | EmptyString => nullable r
  | String c s' => matches (deriv c r) s'
  end.

Definition Plus (r : re) : re := Cat r (Star r).

Fixpoint Rep (n : nat) (r : re) : re :=
  match n with O => Eps | S n' => Cat r (Rep n' r) end.

Definition Chr (c : ascii) : re := Sym (Ascii.eqb c).

Definition Byte (b : Z) : re := Sym (fun c => Js.code c =? b).

(** [\d] *)
Definition d : re := Sym Js.is_digit.

(** [\s]: one white-space character, in its UTF-8 spelling. *)
Definition s : re :=
  Alt (Sym (fun c => Js.ws1 (Js.code c)))
 (Alt (Cat (Byte 194) (Byte 160))
 (Alt (Cat (Byte 225) (Cat (Byte 154) (Byte 128)))
 (Alt (Cat (Byte 226) (Cat (Byte 128)
        (Sym (fun c => let b := Js.code c in
                       ((128 <=? b) && (b <=? 138)) || (b =? 168)
                       || (b =? 169) || (b =? 175)))))
 (Alt (Cat (Byte 226) (Cat (Byte 129) (Byte 159)))
 (Alt (Cat (Byte 227) (Cat (Byte 128) (Byte 128)))
      (Cat (Byte 239) (Cat (Byte 187) (Byte 191)))))))).

End Regex.

(** ** types/index.ts *)

Module Types.

(** BaseLotteryData: what a source parser hands to the writer. *)
Record BaseLotteryData : Type := {
  qihao : string;
  opentime : string;
  opennum : string;
  sum_value : Js.jsnum;
  source : string
}.

(** LotteryData extends BaseLotteryData with the precomputed attributes. *)
Record LotteryData : Type := {
  base :> BaseLotteryData;
  is_da : bool;
  is_xiao : bool;
  is_dan : bool;
  is_shuang : bool;
  is_jida : bool;
  is_jixiao : bool;
  combination : string;
  is_baozi : bool;
  is_duizi : bool;
  is_shunzi : bool;
  is_zaliu : bool;
  is_xiaobian : bool;
  is_zhong : bool;
  is_dabian : bool;
  is_bian : bool;
  is_long : bool;
  is_hu : bool;
  is_he : bool
}.

Record ValidationResult : Type := {
  valid : bool;
  error : option string
}.

Inductive PredictType : Type :=
| DANSHUANG
| DAXIAO
| COMBINATION
| KILL.

End Types.

(** ** config/stat-types.ts *)

Module StatTypes.

Definition DA := "da".
Definition XIAO := "xiao".
Definition DAN := "dan".
Definition SHUANG := "shuang".
Definition DD := "dd".
Definition XD := "xd".
Definition DS := "ds".
Definition XS := "xs".
Definition JD := "jd".
Definition JX := "jx".
Definition DZ := "dz".
Definition SZ := "sz".
Definition BZ := "bz".
Definition ZL := "zl".
Definition XB := "xb".
Definition ZHONG := "zhong".
Definition DB := "db".
Definition BIAN := "bian".
Definition LONG := "long".
Definition HU := "hu".
Definition HE := "he".

Definition BASE_STAT_TYPES : list string :=
  [DA; XIAO; DAN; SHUANG; DD; XD; DS; XS; JD; JX; DZ; SZ; BZ; ZL;
   XB; ZHONG; DB; BIAN; LONG; HU; HE].

(** [Array.from({ length: 28 }, (_, i) => String(i).padStart(2, '0'))] *)
Definition getSumValueTypes : list string :=
  map (fun i : nat => Js.padStart 2 "0" (Js.num_to_string (Js.Int (Z.of_nat i))))
      (seq 0 28).

Definition getAllStatTypes : list string :=
  BASE_STAT_TYPES ++ getSumValueTypes.

End StatTypes.

(** ** helpers/lottery-analyzer.ts *)

Module Analyzer.
Import Js Types.

Record SumAnalysis : Type := {
  isDa : bool;
  isXiao : bool;
  isDan : bool;
  isShuang : bool;
  isJiDa : bool;
  isJiXiao : bool;
  combination : string;
  isXiaoBian : bool;
  isZhong : bool;
  isDaBian : bool;
  isBian : bool
}.

Record PatternAnalysis : Type := {
  isBaozi : bool;
  isDuizi : bool;
  isShunzi : bool;
  isZaliu : bool
}.

Record LongHuHeAnalysis : Type := {
  isLong : bool;
  isHu : bool;
  isHe : bool
}.

Record LotteryAnalysis : Type := {
  sum : SumAnalysis;
  pattern : PatternAnalysis;
  longHuHe : LongHuHeAnalysis;
  types : list string
}.

Definition analyzeSumValue (sum : jsnum) : SumAnalysis :=
  let isDa := num_ge sum (Int 14) in
  let isXiao := num_le sum (Int 13) in
  let isDan := num_eq (num_rem sum (Int 2)) (Int 1) in
  let isShuang := num_eq (num_rem sum (Int 2)) (Int 0) in
  let isJiDa := num_ge sum (Int 22) in
  let isJiXiao := num_le sum (Int 5) in
  let isXiaoBian := num_ge sum (Int 0) && num_le sum (Int 9) in
  let isZhong := num_ge sum (Int 10) && num_le sum (Int 17) in
  let isDaBian := num_ge sum (Int 18) && num_le sum (Int 27) in
  let isBian := isXiaoBian || isDaBian in
  let combination :=
    if isDa && isDan then "大单"
    else if isXiao && isDan then "小单"
    else if isDa && isShuang then "大双"
    else "小双" in
  {| isDa := isDa; isXiao := isXiao; isDan := isDan; isShuang := isShuang;
     isJiDa := isJiDa; isJiXiao := isJiXiao; combination := combination;
     isXiaoBian := isXiaoBian; isZhong := isZhong; isDaBian := isDaBian;
     isBian := isBian |}.

Definition analyzePattern (numbers : list jsnum) : PatternAnalysis :=
  let a := numbers !! 0%nat in
  let b := numbers !! 1%nat in
  let c := numbers !! 2%nat in
  let isBaozi := val_eq a b && val_eq b c in
  let isDuizi := negb isBaozi && (val_eq a b || val_eq b c || val_eq a c) in
  let sorted := sort_numeric numbers in
  let isShunzi :=
    negb isBaozi && negb isDuizi
    && val_eq (sorted !! 1%nat) (Some (num_add (to_num (sorted !! 0%nat)) (Int 1)))
    && val_eq (sorted !! 2%nat) (Some (num_add (to_num (sorted !! 1%nat)) (Int 1))) in
  let isZaliu := negb isBaozi && negb isDuizi && negb isShunzi in
  {| isBaozi := isBaozi; isDuizi := isDuizi; isShunzi := isShunzi;
     isZaliu := isZaliu |}.

Definition analyzeLongHuHe (numbers : list jsnum) : LongHuHeAnalysis :=
  let num1 := numbers !! 0%nat in
  let num3 := numbers !! 2%nat in
  {| isLong := num_gt (to_num num1) (to_num num3);
     isHu := num_lt (to_num num1) (to_num num3);
     isHe := val_eq num1 num3 |}.

(** [if (cond) types.push(key)] *)
Definition push_if (cond : bool) (key : string) (types : list string) : list string :=
  if cond then types ++ [key] else types.

Definition collectStatTypes (sum : jsnum) (pattern : PatternAnalysis)
    (longHuHe : LongHuHeAnalysis) : list string :=
  let sumAnalysis := analyzeSumValue sum in
  let types := [] in
  let types := push_if (isDa sumAnalysis) "da" types in
  let types := push_if (isXiao sumAnalysis) "xiao" types in
  let types := push_if (isDan sumAnalysis) "dan" types in
  let types := push_if (isShuang sumAnalysis) "shuang" types in
  let types := push_if (isDa sumAnalysis && isDan sumAnalysis) "dd" types in
  let types := push_if (isXiao sumAnalysis && isDan sumAnalysis) "xd" types in
  let types := push_if (isDa sumAnalysis && isShuang sumAnalysis) "ds" types in
  let types := push_if (isXiao sumAnalysis && isShuang sumAnalysis) "xs" types in
  let types := push_if (isJiDa sumAnalysis) "jd" types in
  let types := push_if (isJiXiao sumAnalysis) "jx" types in
  let types := push_if (isBaozi pattern) "bz" types in
  let types := push_if (isDuizi pattern) "dz" types in
  let types := push_if (isShunzi pattern) "sz" types in
  let types := push_if (isZaliu pattern) "zl" types in
  let types := push_if (isXiaoBian sumAnalysis) "xb" types in
  let types := push_if (isZhong sumAnalysis) "zhong" types in
  let types := push_if (isDaBian sumAnalysis) "db" types in
  let types := push_if (isBian sumAnalysis) "bian" types in
  let types := push_if (isLong longHuHe) "long" types in
  let types := push_if (isHu longHuHe) "hu" types in
  let types := push_if (isHe longHuHe) "he" types in
  types ++ [padStart 2 "0" (num_to_string sum)].

Definition analyzeFullLotteryData (opennum : string) (sum : jsnum) : LotteryAnalysis :=
  let numbers := map parseInt (split_on "+" opennum) in
  let sumAnalysis := analyzeSumValue sum in
  let patternAnalysis := analyzePattern numbers in
  let longHuHeAnalysis := analyzeLongHuHe numbers in
  let types := collectStatTypes sum patternAnalysis longHuHeAnalysis in
  {| sum := sumAnalysis; pattern := patternAnalysis;
     longHuHe := longHuHeAnalysis; types := types |}.

(** The hit categories of a stored draw, read off its precomputed fields. *)
Definition collectHitTypes (data : LotteryData) : list string :=
  let types := [] in
  let types := push_if (is_da data) StatTypes.DA types in
  let types := push_if (is_xiao data) StatTypes.XIAO types in
  let types := push_if (is_dan data) StatTypes.DAN types in
  let types := push_if (is_shuang data) StatTypes.SHUANG types in
  let types := push_if (is_da data && is_dan data) StatTypes.DD types in
  let types := push_if (is_xiao data && is_dan data) StatTypes.XD types in
  let types := push_if (is_da data && is_shuang data) StatTypes.DS types in
  let types := push_if (is_xiao data && is_shuang data) StatTypes.XS types in
  let types := push_if (is_jida data) StatTypes.JD types in
  let types := push_if (is_jixiao data) StatTypes.JX types in
  let types := push_if (is_baozi data) StatTypes.BZ types in
  let types := push_if (is_duizi data) StatTypes.DZ types in
  let types := push_if (is_shunzi data) StatTypes.SZ types in
  let types := push_if (is_zaliu data) StatTypes.ZL types in
  let types := push_if (is_xiaobian data) StatTypes.XB types in
  let types := push_if (is_zhong data) StatTypes.ZHONG types in
  let types := push_if (is_dabian data) StatTypes.DB types in
  let types := push_if (is_bian data) StatTypes.BIAN types in
  let types := push_if (is_long data) StatTypes.LONG types in
  let types := push_if (is_hu data) StatTypes.HU types in
  let types := push_if (is_he data) StatTypes.HE types in
  types ++ [padStart 2 "0" (num_to_string (sum_value data))].

End Analyzer.

(** ** Errors and the log *)

Module Runtime.

(** The fields of a thrown error object that the sources inspect. *)
Record JsError : Type := {
  code : option string;
  errno : option Z;
  status : option Z;
  message : string
}.

(** A [try] block either completes or throws. *)
Inductive completion (A : Type) : Type :=
| Normal (a : A)
| Throw (e : JsError).
Arguments Normal {A} a.
Arguments Throw {A} e.

(** Log lines at WARN and above; DEBUG and INFO lines are not recorded. *)
Inductive LogLevel : Type := WARN | ERROR.

Record LogEntry : Type := {
  level : LogLevel;
  msg : string
}.

Definition warn (m : string) : LogEntry := {| level := WARN; msg := m |}.
Definition err (m : string) : LogEntry := {| level := ERROR; msg := m |}.

End Runtime.

(** ** helpers/validator.ts *)

Module Validator.
Import Js Types Regex.

Definition ok : ValidationResult := {| valid := true; error := None |}.
Definition invalid (e : string) : ValidationResult :=
  {| valid := false; error := Some e |}.

Definition validateSum (a b c sum : jsnum) : ValidationResult :=
  let calculatedSum := num_add (num_add a b) c in
  if negb (num_eq calculatedSum sum) then
    invalid ("和值校验失败: " +:+ num_to_string a +:+ "+" +:+ num_to_string b
             +:+ "+" +:+ num_to_string c +:+ "=" +:+ num_to_string calculatedSum
             +:+ ", 实际值=" +:+ num_to_string sum)
  else ok.

(** [/^\d{7}$/] *)
Definition ISSUE_PATTERN : re := Rep 7 d.

Definition validateIssue (issue : string) : ValidationResult :=
  if negb (matches ISSUE_PATTERN issue) then
    invalid ("期号格式错误: " +:+ issue +:+ "，应为7位数字")
  else ok.

(** [/^\d{2}:\d{2}:\d{2}$/], the clock part both time formats end with. *)
Definition clock : re :=
  Cat (Rep 2 d) (Cat (Chr ":") (Cat (Rep 2 d) (Cat (Chr ":") (Rep 2 d)))).

(** [/^\d{2}-\d{2}\s\d{2}:\d{2}:\d{2}$/] *)
Definition SHORT_FORMAT : re :=
  Cat (Rep 2 d) (Cat (Chr "-") (Cat (Rep 2 d) (Cat s clock))).

(** [/^\d{4}-\d{2}-\d{2}\s\d{2}:\d{2}:\d{2}$/] *)
Definition FULL_FORMAT : re :=
  Cat (Rep 4 d) (Cat (Chr "-") SHORT_FORMAT).

Definition validateTime (timeStr : string) : ValidationResult :=
  let isValidFormat := matches SHORT_FORMAT timeStr || matches FULL_FORMAT timeStr in
  if negb isValidFormat then invalid ("时间格式错误: " +:+ timeStr)
  else ok.

Definition isIssueIncreasing (currentIssue previousIssue : string) : bool :=
  let current := parseInt currentIssue in
  let previous := parseInt previousIssue in
  num_gt current previous.

(** [/^\d+\+\d+\+\d+$/] *)
Definition OPENNUM_PATTERN : re :=
  Cat (Plus d) (Cat (Chr "+") (Cat (Plus d) (Cat (Chr "+") (Plus d)))).

Definition parseNumbersFromOpennum (opennum : string) : list jsnum :=
  map parseInt (split_on "+" opennum).

Definition MIN_NUMBER : jsnum := Int 0.
Definition MAX_NUMBER : jsnum := Int 9.

Definition validateNumbersRange (numbers : list jsnum) (opennum : string)
    : ValidationResult :=
  if existsb (fun num => num_lt num MIN_NUMBER || num_gt num MAX_NUMBER) numbers
  then invalid ("开奖号码数字超出范围: " +:+ opennum +:+ "，每个数字应在"
                +:+ num_to_string MIN_NUMBER +:+ "-" +:+ num_to_string MAX_NUMBER
                +:+ "之间")
  else ok.

Definition validateOpennum (opennum : string) : ValidationResult :=
  if negb (matches OPENNUM_PATTERN opennum) then
    invalid ("开奖号码格式错误: " +:+ opennum +:+ "，应为 " +:+ dquote
             +:+ "数字+数字+数字" +:+ dquote)
  else
    let numbers := parseNumbersFromOpennum opennum in
    let rangeValidation := validateNumbersRange numbers opennum in
    if negb (valid rangeValidation) then rangeValidation else ok.

Record Opennum : Type := {
  a : jsnum;
  b : jsnum;
  c : jsnum;
  sum : jsnum
}.

Definition parseOpennum (opennum : string) : option Opennum :=
  match map parseInt (split_on "+" opennum) with
  | [a; b; c] =>
      Some {| a := a; b := b; c := c; sum := num_add (num_add a b) c |}
  | _ => None
  end.

End Validator.

(** ** The shared cache server

    Only the three key families the write path touches are kept:
    [project:seen:issue:{issue}], [project:last:issue] and
    [project:lock:issue:{issue}].  Key expiry happens between calls and is
    the environment's doing.  A connection is sampled at each call site:
    [healthy] is [getRedisHealthStatus()], [throws] says whether the command
    issued there fails. *)

Module Redis.

Record Store : Type := {
  seen : gset string;
  last_issue : option string;
  locks : gset string
}.

Record Conn : Type := {
  healthy : bool;
  throws : bool
}.

Definition set_seen (f : gset string -> gset string) (r : Store) : Store :=
  {| seen := f (seen r); last_issue := last_issue r; locks := locks r |}.

Definition set_last (v : option string) (r : Store) : Store :=
  {| seen := seen r; last_issue := v; locks := locks r |}.

Definition set_locks (f : gset string -> gset string) (r : Store) : Store :=
  {| seen := seen r; last_issue := last_issue r; locks := f (locks r) |}.

End Redis.

(** ** A JavaScript [Map] from strings to time stamps, in insertion order *)

Module JsMap.

Definition t : Type := list (string * Z).

Fixpoint get (k : string) (m : t) : option Z :=
  match m with
  | [] => None
  | (k', v) :: r => if bool_decide (k' = k) then Some v else get k r
  end.

Definition has (k : string) (m : t) : bool :=
  bool_decide (is_Some (get k m)).

(** [set] keeps the position of a key that is already present. *)
Fixpoint set (k : string) (v : Z) (m : t) : t :=
  match m with
  | [] => [(k, v)]
  | (k', v') :: r =>
      if bool_decide (k' = k) then (k, v) :: r else (k', v') :: set k v r
  end.

Definition delete (k : string) (m : t) : t :=
  filter (fun e => fst e ≠ k) m.

Definition size (m : t) : nat := length m.

(** [entries.sort((a, b) => a[1] - b[1])], stable. *)
Fixpoint insert_by_time (e : string * Z) (l : list (string * Z)) : list (string * Z) :=
  match l with
  | [] => [e]
  | e' :: r =>
      if snd e - snd e' >? 0 then e' :: insert_by_time e r else e :: e' :: r
  end.

Definition sort_by_time (l : list (string * Z)) : list (string * Z) :=
  foldr insert_by_time [] l.

End JsMap.

(** ** modules/cache/deduplication.ts

    [saveLocalCache] only writes the snapshot file and catches its own
    failures; it leaves the in-memory state alone and is left out. *)

Module Dedup.
Import Redis.

Record Cache : Type := {
  localProcessedCache : JsMap.t;
  lastIssueLocal : option string
}.

Definition LOCAL_CACHE_TTL : Z := 3600000.
Definition MAX_LOCAL_CACHE_SIZE : Z := 5000.

Definition with_map (m : JsMap.t) (c : Cache) : Cache :=
  {| localProcessedCache := m; lastIssueLocal := lastIssueLocal c |}.

Definition cleanLocalCache (now : Z) (c : Cache) : Cache :=
  with_map (filter (fun e => ¬ (now - snd e > LOCAL_CACHE_TTL))
                   (localProcessedCache c)) c.

Definition isProcessedLocally (now : Z) (issue : string) (c : Cache) : bool * Cache :=
  match JsMap.get issue (localProcessedCache c) with
  | None => (false, c)
  | Some timestamp =>
      if timestamp =? 0 then (false, c)
      else if now - timestamp >? LOCAL_CACHE_TTL
      then (false, with_map (JsMap.delete issue (localProcessedCache c)) c)
      else (true, c)
  end.

Definition markProcessedLocally (now : Z) (issue : string) (c : Cache) : Cache :=
  let c1 :=
    if MAX_LOCAL_CACHE_SIZE <=? Z.of_nat (JsMap.size (localProcessedCache c)) then
      let c' := cleanLocalCache now c in
      if MAX_LOCAL_CACHE_SIZE <=? Z.of_nat (JsMap.size (localProcessedCache c')) then
        let entries := JsMap.sort_by_time (localProcessedCache c') in
        let oldest := take (length entries / 2)%nat entries in
        with_map (foldl (fun m e => JsMap.delete (fst e) m)
                        (localProcessedCache c') oldest) c'
      else c'
    else c in
  with_map (JsMap.set issue now (localProcessedCache c1)) c1.

Definition isProcessed (conn : Conn) (now : Z) (issue : string)
    (r : Store) (c : Cache) : bool * Cache :=
  if negb (healthy conn) then isProcessedLocally now issue c
  else if throws conn then isProcessedLocally now issue c
  else
    let processed := bool_decide (issue ∈ seen r) in
    (processed, if processed then markProcessedLocally now issue c else c).

Definition markProcessed (conn : Conn) (now : Z) (issue : string)
    (r : Store) (c : Cache) : Store * Cache :=
  let c' := markProcessedLocally now issue c in
  if negb (healthy conn) then (r, c')
  else if throws conn then (r, c')
  else (set_seen (fun s => {[issue]} ∪ s) r, c').

(** A string read from the cache server counts when it is non-empty. *)
Definition truthy (v : option string) : bool :=
  match v with
  | Some s => negb (String.eqb s EmptyString)
  | None => false
  end.

Definition getLastIssue (conn : Conn) (r : Store) (c : Cache)
    : option string * Cache :=
  if negb (healthy conn) then (lastIssueLocal c, c)
  else if throws conn then (lastIssueLocal c, c)
  else
    let issue := last_issue r in
    (issue,
     if truthy issue
     then {| localProcessedCache := localProcessedCache c; lastIssueLocal := issue |}
     else c).

Definition setLastIssue (conn : Conn) (issue : string) (r : Store) (c : Cache)
    : Store * Cache :=
  let c' := {| localProcessedCache := localProcessedCache c;
               lastIssueLocal := Some issue |} in
  if negb (healthy conn) then (r, c')
  else if throws conn then (r, c')
  else (set_last (Some issue) r, c').

End Dedup.

(** ** modules/cache/lock.ts *)

Module Lock.
Import Redis.

Section WithTTL.
(** [config.cache.lockTTL], in seconds. *)
Variable LOCK_TTL : Z.

Definition LOCAL_LOCK_TTL : Z := LOCK_TTL * 1000.

Definition cleanLocalLocks (now : Z) (localLocks : JsMap.t) : JsMap.t :=
  filter (fun e => ¬ (now - snd e > LOCAL_LOCK_TTL)) localLocks.

Definition acquireLocalLock (now : Z) (issue : string) (localLocks : JsMap.t)
    : bool * JsMap.t :=
  let localLocks := cleanLocalLocks now localLocks in
  match JsMap.get issue localLocks with
  | Some existingLock =>
      if negb (existingLock =? 0) && (now - existingLock <? LOCAL_LOCK_TTL)
      then (false, localLocks)
      else (true, JsMap.set issue now localLocks)
  | None => (true, JsMap.set issue now localLocks)
  end.

Definition releaseLocalLock (issue : string) (localLocks : JsMap.t) : JsMap.t :=
  JsMap.delete issue localLocks.

(** [SET key 'locked' EX ttl NX] answers OK exactly when the key is free. *)
Definition acquireLock (conn : Conn) (now : Z) (issue : string)
    (r : Store) (localLocks : JsMap.t) : bool * Store * JsMap.t :=
  if negb (healthy conn) then
    let '(acquired, l) := acquireLocalLock now issue localLocks in (acquired, r, l)
  else if throws conn then
    let '(acquired, l) := acquireLocalLock now issue localLocks in (acquired, r, l)
  else if bool_decide (issue ∈ locks r) then (false, r, localLocks)
  else (true, set_locks (fun s => {[issue]} ∪ s) r, localLocks).

Definition releaseLock (conn : Conn) (issue : string)
    (r : Store) (localLocks : JsMap.t) : Store * JsMap.t :=
  let l := releaseLocalLock issue localLocks in
  if negb (healthy conn) then (r, l)
  else if throws conn then (r, l)
  else (set_locks (fun s => s ∖ {[issue]}) r, l).

End WithTTL.

End Lock.

(** ** modules/lottery/issue-tracker.ts *)

Module Tracker.
Import Js Runtime.

Record IssueTracker : Type := {
  latestIssue : string;
  isInitialized : bool
}.

(** The state of a newly constructed tracker (also what [reset] restores). *)
Definition reset : IssueTracker :=
  {| latestIssue := "0"; isInitialized := false |}.

(** What [readDB.latest_lottery_data.findFirst] does: a row, no row, or a
    rejected promise. *)
Inductive FindFirst : Type :=
| Row (qihao : string)
| NoRow
| Rejected (error : JsError).

Definition initialize (read : FindFirst) (t : IssueTracker)
    : IssueTracker * list LogEntry :=
  match read with
  | Row qihao => ({| latestIssue := qihao; isInitialized := true |}, [])
  | NoRow =>
      ({| latestIssue := "0"; isInitialized := true |},
       [warn "数据库为空，期号追踪器使用默认值"])
  | Rejected _ =>
      ({| latestIssue := "0"; isInitialized := true |},
       [warn "期号追踪器初始化失败，使用默认值"])
  end.

(** The body of the [try] in [isNewIssue]; [parseInt] returns for every
    string, so the block always completes. *)
Definition isNewIssue_try (t : IssueTracker) (qihao : string) : completion bool :=
  let currentIssueNum := parseInt (latestIssue t) in
  let newIssueNum := parseInt qihao in
  Normal (num_gt newIssueNum currentIssueNum).

Definition isNewIssue_log (t : IssueTracker) (qihao : string) : bool * list LogEntry :=
  if negb (isInitialized t) then (true, [])
  else
    match isNewIssue_try t qihao with
    | Normal r => (r, [])
    | Throw _ => (true, [warn "期号解析失败"])
    end.

Definition isNewIssue (t : IssueTracker) (qihao : string) : bool :=
  fst (isNewIssue_log t qihao).

Definition updateLatestIssue_try (t : IssueTracker) (qihao : string)
    : completion (IssueTracker * list LogEntry) :=
  let currentIssueNum := parseInt (latestIssue t) in
  let newIssueNum := parseInt qihao in
  if num_gt newIssueNum currentIssueNum
  then Normal ({| latestIssue := qihao; isInitialized := isInitialized t |}, [])
  else Normal (t, [warn "尝试更新为非递增期号，已忽略"]).

Definition updateLatestIssue (t : IssueTracker) (qihao : string)
    : IssueTracker * list LogEntry :=
  match updateLatestIssue_try t qihao with
  | Normal r => r
  | Throw _ => (t, [warn "期号更新失败"])
  end.

Definition getLatestIssue (t : IssueTracker) : string := latestIssue t.

Definition isReady (t : IssueTracker) : bool := isInitialized t.

End Tracker.

(** ** modules/lottery/validator.ts *)

Module LotteryValidator.
Import Js Types Runtime Validator.

Definition validateDataIssue (qihao : string) : ValidationResult :=
  validateIssue qihao.

Definition validateDataOpennum (opennum : string) : ValidationResult :=
  validateOpennum opennum.

Definition validateDataTime (opentime : string) : ValidationResult :=
  validateTime opentime.

Definition validateDataSum (opennum : string) (sumValue : jsnum) : ValidationResult :=
  match parseOpennum opennum with
  | None => invalid "无法解析开奖号码"
  | Some parsed => validateSum (a parsed) (b parsed) (c parsed) sumValue
  end.

(** Reads the last-issue pointer and only ever logs. *)
Definition checkIssueIncrement (conn : Redis.Conn) (r : Redis.Store)
    (cache : Dedup.Cache) (currentIssue : string) : Dedup.Cache * list LogEntry :=
  let '(lastIssue, cache') := Dedup.getLastIssue conn r cache in
  match lastIssue with
  | Some last =>
      if Dedup.truthy lastIssue && negb (isIssueIncreasing currentIssue last)
      then (cache', [warn "期号未递增，可能是旧数据"])
      else (cache', [])
  | None => (cache', [])
  end.

Definition validateLotteryData (conn : Redis.Conn) (r : Redis.Store)
    (cache : Dedup.Cache) (data : BaseLotteryData)
    : ValidationResult * Dedup.Cache * list LogEntry :=
  let issueValidation := validateDataIssue (qihao data) in
  if negb (valid issueValidation) then (issueValidation, cache, []) else
  let opennumValidation := validateDataOpennum (opennum data) in
  if negb (valid opennumValidation) then (opennumValidation, cache, []) else
  let timeValidation := validateDataTime (opentime data) in
  if negb (valid timeValidation) then (timeValidation, cache, []) else
  let sumValidation := validateDataSum (opennum data) (sum_value data) in
  if negb (valid sumValidation) then (sumValidation, cache, []) else
  let '(cache', logs) := checkIssueIncrement conn r cache (qihao data) in
  (ok, cache', logs).

End LotteryValidator.

(** ** JSON values and the coercions applied to them *)

Module Json.
Import Js Regex.

#[local] Unset Elimination Schemes.
Inductive jsval : Type :=
| VUndef
| VNull
| VBool (b : bool)
| VNum (n : jsnum)
| VStr (s : string)
| VArr (items : list jsval)
| VObj (fields : list (string * jsval)).
#[local] Set Elimination Schemes.

(** [String(v)].  An array prints its elements joined by commas, with
    [null] and [undefined] printed as nothing. *)
Fixpoint to_string (v : jsval) : string :=
  match v with
  | VUndef => "undefined"
  | VNull => "null"
  | VBool true => "true"
  | VBool false => "false"
  | VNum n => num_to_string n
  | VStr s => s
  | VArr items =>
      join ","
        (map (fun x => match x with
                       | VUndef | VNull => EmptyString
                       | _ => to_string x
                       end) items)
  | VObj _ => "[object Object]"
  end.

(** ToBoolean *)
Definition truthy (v : jsval) : bool :=
  match v with
  | VUndef | VNull => false
  | VBool b => b
  | VNum NaN => false
  | VNum (Int z) => negb (z =? 0)
  | VStr s => negb (String.eqb s EmptyString)
  | VArr _ | VObj _ => true
  end.

Definition isArray (v : jsval) : bool :=
  match v with VArr _ => true | _ => false end.



(** StringToNumber.  The numeric grammar is recognised in full; a literal
    with a fraction, an exponent or [Infinity] denotes a number the model
    does not represent and yields [None]. *)
Definition sign : re := Alt Eps (Alt (Chr "+") (Chr "-")).








End Json.

(** ** helpers/parser.ts: number normalisation *)

Module Parser.
Import Js Regex Json.

(** [str.replace(/,/g, '+')] *)
Fixpoint replace_commas (str : string) : string :=
  match str with
  | EmptyString => EmptyString
  | String c r =>
      String (if Ascii.eqb c "," then "+"%char else c) (replace_commas r)
  end.

(** [str.replace(/\s+/g, '+')]: every maximal run of white space becomes
    one plus sign. *)
Fixpoint replace_spaces_fuel (fuel : nat) (str : string) : string :=
  match fuel with
  | O => str
  | S fuel' =>
      match strip_ws str with
      | Some _ => String "+" (replace_spaces_fuel fuel' (trimStart str))
      | None =>
          match str with
          | EmptyString => EmptyString
          | String c r => String c (replace_spaces_fuel fuel' r)
          end
      end
  end.

Definition replace_spaces (str : string) : string :=
  replace_spaces_fuel (String.length str) str.

(** [str.split(/[^\d]+/)]: the pieces between maximal runs of non-digits;
    a run at either end leaves an empty piece there. *)
Fixpoint split_nondigits (str : string) : list string :=
  match str with
  | EmptyString => [EmptyString]
  | String c r =>
      if is_digit c then
        match split_nondigits r with
        | p :: ps => String c p :: ps
        | [] => [String c EmptyString]
        end
      else
        match r with
        | String c' _ =>
            if is_digit c' then EmptyString :: split_nondigits r
            else split_nondigits r
        | EmptyString => EmptyString :: split_nondigits r
        end
  end.

Definition char_at (str : string) (i : nat) : string :=
  match String.get i str with
  | Some c => String c EmptyString
  | None => "undefined"
  end.

(** [/^\d+,\d+,\d+$/] *)
Definition COMMA_FORM : re :=
  Cat (Plus d) (Cat (Chr ",") (Cat (Plus d) (Cat (Chr ",") (Plus d)))).

(** [/^\d+\s+\d+\s+\d+$/] *)
Definition SPACE_FORM : re :=
  Cat (Plus d) (Cat (Plus s) (Cat (Plus d) (Cat (Plus s) (Plus d)))).

(** [/^\d{3}$/] *)
Definition DIGITS3 : re := Rep 3 d.

Definition normalizeNumbers (numbers : jsval) : option string :=
  let str := trim (to_string numbers) in
  if matches Validator.OPENNUM_PATTERN str then Some str
  else if matches COMMA_FORM str then Some (replace_commas str)
  else if matches SPACE_FORM str then Some (replace_spaces str)
  else if matches DIGITS3 str then
    Some (char_at str 0 +:+ "+" +:+ char_at str 1 +:+ "+" +:+ char_at str 2)
  else
    let parts :=
      filter (fun p => (0 < String.length p)%nat) (split_nondigits str) in
    if bool_decide (length parts = 3%nat) && forallb (matches (Plus d)) parts
    then Some (join "+" parts)
    else None.

End Parser.

(** ** modules/fetcher/sources/playnow-keno.ts *)

Module Keno.
Import Js Json.






End Keno.

(** ** modules/prediction/writer.ts: ground truth and hit *)

Module Predict.
Import Js Types.

Definition calculateResultValue (predictType : PredictType) (sumValue : jsnum)
    : string :=
  match predictType with
  | DANSHUANG =>
      if num_eq (num_rem sumValue (Int 2)) (Int 1) then "单" else "双"
  | DAXIAO =>
      if num_ge sumValue (Int 14) then "大" else "小"
  | COMBINATION | KILL =>
      let isDa := num_ge sumValue (Int 14) in
      let isDan := num_eq (num_rem sumValue (Int 2)) (Int 1) in
      if isDa && isDan then "大单"
      else if negb isDa && isDan then "小单"
      else if isDa && negb isDan then "大双"
      else "小双"
  end.

(** [xs.includes(x)] on strings *)
Definition includes (x : string) (xs : list string) : bool :=
  existsb (String.eqb x) xs.

Definition calculateHit (predictType : PredictType)
    (predictValue resultValue : string) : bool :=
  match predictType with
  | DANSHUANG | DAXIAO => String.eqb predictValue resultValue
  | COMBINATION =>
      let predictCombos := map trim (split_on "," predictValue) in
      includes resultValue predictCombos
  | KILL => negb (String.eqb predictValue resultValue)
  end.

End Predict.

(** ** helpers/retry.ts *)

Module Retry.
Import Runtime.

Fixpoint starts_with (prefix str : string) : bool :=
  match prefix, str with
  | EmptyString, _ => true
  | String p ps, String c cs => Ascii.eqb p c && starts_with ps cs
  | String _ _, EmptyString => false
  end.

(** [str.includes(needle)] *)
Fixpoint str_includes (needle str : string) : bool :=
  starts_with needle str
  || match str with
     | EmptyString => false
     | String _ rest => str_includes needle rest
     end.

Definition code_is (error : JsError) (c : string) : bool :=
  bool_decide (code error = Some c).

Definition errno_is (error : JsError) (n : Z) : bool :=
  bool_decide (errno error = Some n).

(** [error.response?.status >= lo && error.response?.status < hi] *)
Definition status_in (error : JsError) (lo hi : Z) : bool :=
  match status error with
  | Some st => (lo <=? st) && (st <? hi)
  | None => false
  end.

Definition defaultShouldRetry (error : JsError) : bool :=
  if code_is error "P2002" then false
  else if code_is error "P2003" then false
  else if code_is error "P2004" then false
  else if code_is error "P2014" then false
  else if code_is error "P2025" then false
  else if status_in error 400 500 then bool_decide (status error = Some 429)
  else if status_in error 500 600 then true
  else if code_is error "ECONNABORTED" || code_is error "ERR_CANCELED" then true
  else if code_is error "P2024" || code_is error "P1001" || code_is error "P1002"
          || code_is error "P1008" || code_is error "P1017" then true
  else if code_is error "ECONNREFUSED" || code_is error "ETIMEDOUT"
          || code_is error "ENOTFOUND" || code_is error "ECONNRESET"
          || code_is error "EPIPE" || code_is error "ENETUNREACH"
          || code_is error "EHOSTUNREACH" || code_is error "EAI_AGAIN" then true
  else if errno_is error 1205 || errno_is error 1213 || errno_is error 1040
          || errno_is error 2002 || errno_is error 2003 || errno_is error 2006
          || errno_is error 2013 then true
  else
    let errorMessage := message error in
    if str_includes "Connection" errorMessage && str_includes "timeout" errorMessage
    then true
    else if str_includes "Connection" errorMessage && str_includes "lost" errorMessage
    then true
    else if str_includes "Connection" errorMessage && str_includes "closed" errorMessage
    then true
    else if str_includes "ECONNRESET" errorMessage then true
    else if str_includes "socket hang up" errorMessage then true
    else if str_includes "aborted" errorMessage then true
    else false.

(** The retry loop from attempt [attempt] on, with [left] further attempts
    allowed.  [fn k] is what the [k]-th call of the operation does; the
    waits between attempts take time and nothing else. *)
Fixpoint retry_from {A : Type} (fn : nat -> completion A)
    (attempt left : nat) : completion A :=
  match fn attempt with
  | Normal a => Normal a
  | Throw error =>
      if negb (defaultShouldRetry error) then Throw error
      else match left with
           | O => Throw error
           | S left' => retry_from fn (S attempt) left'
           end
  end.

(** [retryAsync(fn, { maxAttempts })], for [maxAttempts >= 1]. *)
Definition retryAsync {A : Type} (fn : nat -> completion A) (maxAttempts : nat)
    : completion A :=
  retry_from fn 1 (maxAttempts - 1).

(** database/operations.ts *)
Definition withRetry {A : Type} (operation : nat -> completion A)
    (maxAttempts : nat) : completion A :=
  retryAsync operation maxAttempts.

End Retry.

(** ** The tables *)

Module Db.
Import Js.

(** A row of [latest_lottery_data]; dates are instants in milliseconds. *)
Record LotteryRow : Type := {
  qihao : string;
  opentime : Z;
  opennum : string;
  sum_value : jsnum;
  source : string;
  is_da : bool;
  is_xiao : bool;
  is_dan : bool;
  is_shuang : bool;
  is_jida : bool;
  is_jixiao : bool;
  combination : string;
  is_baozi : bool;
  is_duizi : bool;
  is_shunzi : bool;
  is_zaliu : bool;
  is_xiaobian : bool;
  is_zhong : bool;
  is_dabian : bool;
  is_bian : bool;
  is_long : bool;
  is_hu : bool;
  is_he : bool;
  created_at : Z;
  updated_at : Z
}.

(** [latest_lottery_data] is keyed by [qihao], [omission_data] by
    [omission_type] and holds [omission_count]. *)
Record Tables : Type := {
  latest_lottery_data : gmap string LotteryRow;
  omission_data : gmap string Z
}.

Definition with_lottery (f : gmap string LotteryRow -> gmap string LotteryRow)
    (t : Tables) : Tables :=
  {| latest_lottery_data := f (latest_lottery_data t);
     omission_data := omission_data t |}.

Definition with_omission (f : gmap string Z -> gmap string Z) (t : Tables) : Tables :=
  {| latest_lottery_data := latest_lottery_data t;
     omission_data := f (omission_data t) |}.

(** Prisma's [upsert({ where, create, update })]: the row under the key is
    rewritten by the assignments of the update clause when it exists, and
    the create clause is inserted when it does not. *)
Definition upsert {V : Type} (key : string) (create : V) (update : V -> V)
    (table : gmap string V) : gmap string V :=
  match table !! key with
  | Some row => <[key := update row]> table
  | None => <[key := create]> table
  end.

(** [update: {}] assigns nothing. *)
Definition no_update {V : Type} (row : V) : V := row.

(** [findMany({ orderBy: { opentime: 'desc' } })].  Rows with equal
    [opentime] come in an order the engine picks; the model keeps the
    order of the key. *)
Fixpoint insert_desc (row : LotteryRow) (rows : list LotteryRow) : list LotteryRow :=
  match rows with
  | [] => [row]
  | r :: rest =>
      if opentime r <? opentime row then row :: r :: rest
      else r :: insert_desc row rest
  end.

Definition findMany_desc (table : gmap string LotteryRow) : list LotteryRow :=
  foldr insert_desc [] (snd <$> map_to_list table).

End Db.

(** ** services/omission-data.ts

    The database calls of this module are taken to succeed; when one is
    rejected [updateOmissionData] rethrows, which the writer accounts for. *)

Module Omission.
Import Js Types Db.

Definition BATCH_SIZE : nat := 500.
Definition MAX_RECORDS : Z := 10000.

(** The working state of the scan: the [yilou] object and [foundTypes]. *)
Record Scan : Type := {
  yilou : gmap string Z;
  foundTypes : gset string
}.

(** [createEmptyStatObject()] with every entry then set to [-1]. *)
Definition not_found_yet : gmap string Z :=
  list_to_map ((fun type => (type, -1)) <$> StatTypes.getAllStatTypes).

(** [if (yilou[key] === -1 && hit) { yilou[key] = currentIndex; foundTypes.add(key) }] *)
Definition mark (key : string) (hit : bool) (currentIndex : Z) (st : Scan) : Scan :=
  if bool_decide (yilou st !! key = Some (-1)) && hit then
    {| yilou := <[key := currentIndex]> (yilou st);
       foundTypes := {[key]} ∪ foundTypes st |}
  else st.

Definition scan_record (record : LotteryRow) (currentIndex : Z) (st : Scan) : Scan :=
  let sumKey := padStart 2 "0" (num_to_string (sum_value record)) in
  let st := mark sumKey true currentIndex st in
  let st := mark "da" (is_da record) currentIndex st in
  let st := mark "xiao" (is_xiao record) currentIndex st in
  let st := mark "dan" (is_dan record) currentIndex st in
  let st := mark "shuang" (is_shuang record) currentIndex st in
  let st := mark "dd" (is_da record && is_dan record) currentIndex st in
  let st := mark "xd" (is_xiao record && is_dan record) currentIndex st in
  let st := mark "ds" (is_da record && is_shuang record) currentIndex st in
  let st := mark "xs" (is_xiao record && is_shuang record) currentIndex st in
  let st := mark "jd" (is_jida record) currentIndex st in
  let st := mark "jx" (is_jixiao record) currentIndex st in
  let st := mark "bz" (is_baozi record) currentIndex st in
  let st := mark "dz" (is_duizi record) currentIndex st in
  let st := mark "sz" (is_shunzi record) currentIndex st in
  let st := mark "zl" (is_zaliu record) currentIndex st in
  let st := mark "xb" (is_xiaobian record) currentIndex st in
  let st := mark "zhong" (is_zhong record) currentIndex st in
  let st := mark "db" (is_dabian record) currentIndex st in
  let st := mark "bian" (is_bian record) currentIndex st in
  let st := mark "long" (is_long record) currentIndex st in
  let st := mark "hu" (is_hu record) currentIndex st in
  mark "he" (is_he record) currentIndex st.

(** [for (let i = 0; i < batch.length; i++)] with [currentIndex = offset + i] *)
Fixpoint scan_batch (batch : list LotteryRow) (currentIndex : Z) (st : Scan) : Scan :=
  match batch with
  | [] => st
  | record :: rest => scan_batch rest (currentIndex + 1) (scan_record record currentIndex st)
  end.

(** The [while] loop; twenty-one rounds exhaust [MAX_RECORDS]. *)
Fixpoint scan_loop (fuel : nat) (rows : list LotteryRow) (offset : nat) (st : Scan)
    : nat * Scan :=
  match fuel with
  | O => (offset, st)
  | S fuel' =>
      if (Z.of_nat offset <? MAX_RECORDS)
         && bool_decide (size (foundTypes st) < length StatTypes.getAllStatTypes)%nat
      then
        let batch := take BATCH_SIZE (drop offset rows) in
        match batch with
        | [] => (offset, st)
        | _ =>
            let st' := scan_batch batch (Z.of_nat offset) st in
            let offset' := (offset + length batch)%nat in
            if bool_decide (size (foundTypes st') = length StatTypes.getAllStatTypes)
            then (offset', st')
            else scan_loop fuel' rows offset' st'
        end
      else (offset, st)
  end.

Definition calculateYilouDynamic (db : Tables) : gmap string Z :=
  let rows := findMany_desc (latest_lottery_data db) in
  let '(offset, st) :=
    scan_loop 21 rows 0 {| yilou := not_found_yet; foundTypes := ∅ |} in
  foldl (fun y type =>
           if bool_decide (y !! type = Some (-1)) then <[type := Z.of_nat offset]> y
           else y)
        (yilou st) StatTypes.getAllStatTypes.

(** [yilou[type] || 0] *)
Definition count_or_zero (y : gmap string Z) (type : string) : Z :=
  default 0 (y !! type).

Definition initializeOmissionData (db : Tables) : Tables :=
  let allTypes := StatTypes.getAllStatTypes in
  let yilou := calculateYilouDynamic db in
  foldl (fun db type =>
           with_omission
             (upsert type (count_or_zero yilou type)
                     (fun _ => count_or_zero yilou type)) db)
        db allTypes.

Fixpoint lookup_update (type : string) (updates : list (string * Z)) : option Z :=
  match updates with
  | [] => None
  | (t, count) :: rest =>
      if bool_decide (t = type) then Some count else lookup_update type rest
  end.

(** database/operations.ts.  The statement is
    [UPDATE t SET count = CASE type WHEN t1 THEN c1 ... END WHERE type IN (t1, ...)]:
    a row named in [updates] takes the count of its first [WHEN]. *)
Definition batchUpdateStats (updates : list (string * Z)) (table : gmap string Z)
    : gmap string Z :=
  match updates with
  | [] => table
  | _ => map_imap (fun type count =>
                     Some (default count (lookup_update type updates))) table
  end.

Definition updateOmissionData (db : Tables) (data : LotteryData) : Tables :=
  let db :=
    if bool_decide (size (omission_data db) = 0%nat) then initializeOmissionData db
    else db in
  let hitTypes : gset string := list_to_set (Analyzer.collectHitTypes data) in
  let currentOmissions := map_to_list (omission_data db) in
  let updates :=
    (fun record : string * Z =>
       (fst record, if bool_decide (fst record ∈ hitTypes) then 0 else snd record + 1))
    <$> currentOmissions in
  with_omission (batchUpdateStats updates) db.

End Omission.

(** ** modules/lottery/writer.ts *)

Module Writer.
Import Js Types Runtime.

(** The places where the write path talks to the cache server. *)
Inductive Site : Type :=
| SeenCheck
| LockAcquire
| SeenRecheck
| LastIssueRead
| MarkSeen
| LastIssueWrite
| DuplicateMark
| LockRelease.

(** What the outside world decides during one call. *)
Record Env : Type := {
  (** [Date.now()] *)
  now : Z;
  (** [config.cache.lockTTL] *)
  LOCK_TTL : Z;
  (** the state of the cache connection at each site *)
  conn : Site -> Redis.Conn;
  (** [parseBeijingTimeString(data.opentime)], as an instant *)
  opentime_date : Z;
  (** what the [k]-th call of the upsert does: [None] when it goes through *)
  upsert_outcome : nat -> option JsError;
  (** whether [updateOmissionData] is rejected, before writing anything *)
  omission_outcome : option JsError
}.

Record World : Type := {
  tracker : Tracker.IssueTracker;
  cache : Dedup.Cache;
  localLocks : JsMap.t;
  redis : Redis.Store;
  db : Db.Tables;
  (** draws handed to [updateTodayStatistics], which catches its own errors *)
  statistics : list LotteryData;
  (** draws handed to [backupToLocalJson] *)
  backups : list LotteryData;
  (** [dataWritten] events, oldest first *)
  emitted : list LotteryData;
  logs : list LogEntry
}.

Definition set_tracker (v : Tracker.IssueTracker) (w : World) : World :=
  {| tracker := v; cache := cache w; localLocks := localLocks w; redis := redis w;
     db := db w; statistics := statistics w; backups := backups w;
     emitted := emitted w; logs := logs w |}.
Definition set_cache (v : Dedup.Cache) (w : World) : World :=
  {| tracker := tracker w; cache := v; localLocks := localLocks w; redis := redis w;
     db := db w; statistics := statistics w; backups := backups w;
     emitted := emitted w; logs := logs w |}.
Definition set_localLocks (v : JsMap.t) (w : World) : World :=
  {| tracker := tracker w; cache := cache w; localLocks := v; redis := redis w;
     db := db w; statistics := statistics w; backups := backups w;
     emitted := emitted w; logs := logs w |}.
Definition set_redis (v : Redis.Store) (w : World) : World :=
  {| tracker := tracker w; cache := cache w; localLocks := localLocks w; redis := v;
     db := db w; statistics := statistics w; backups := backups w;
     emitted := emitted w; logs := logs w |}.
Definition set_db (v : Db.Tables) (w : World) : World :=
  {| tracker := tracker w; cache := cache w; localLocks := localLocks w;
     redis := redis w; db := v; statistics := statistics w; backups := backups w;
     emitted := emitted w; logs := logs w |}.
Definition add_statistics (v : LotteryData) (w : World) : World :=
  {| tracker := tracker w; cache := cache w; localLocks := localLocks w;
     redis := redis w; db := db w; statistics := statistics w ++ [v];
     backups := backups w; emitted := emitted w; logs := logs w |}.
Definition add_backup (v : LotteryData) (w : World) : World :=
  {| tracker := tracker w; cache := cache w; localLocks := localLocks w;
     redis := redis w; db := db w; statistics := statistics w;
     backups := backups w ++ [v]; emitted := emitted w; logs := logs w |}.
Definition add_emitted (v : LotteryData) (w : World) : World :=
  {| tracker := tracker w; cache := cache w; localLocks := localLocks w;
     redis := redis w; db := db w; statistics := statistics w;
     backups := backups w; emitted := emitted w ++ [v]; logs := logs w |}.
Definition add_logs (v : list LogEntry) (w : World) : World :=
  {| tracker := tracker w; cache := cache w; localLocks := localLocks w;
     redis := redis w; db := db w; statistics := statistics w;
     backups := backups w; emitted := emitted w; logs := logs w ++ v |}.

(** A computation on the world that may throw. *)
Definition M (A : Type) : Type := World -> completion A * World.

Definition ret {A : Type} (a : A) : M A := fun w => (Normal a, w).

Definition bind {A B : Type} (m : M A) (k : A -> M B) : M B :=
  fun w =>
    match m w with
    | (Normal a, w') => k a w'
    | (Throw e, w') => (Throw e, w')
    end.

Definition throw {A : Type} (e : JsError) : M A := fun w => (Throw e, w).

Definition modify (f : World -> World) : M unit := fun w => (Normal tt, f w).

(** [try { m } catch (error) { handler }] *)
Definition try_catch {A : Type} (m : M A) (handler : JsError -> M A) : M A :=
  fun w =>
    match m w with
    | (Normal a, w') => (Normal a, w')
    | (Throw e, w') => handler e w'
    end.

(** [try { m } finally { cleanup }], for a cleanup that does not throw. *)
Definition try_finally {A : Type} (m : M A) (cleanup : World -> World) : M A :=
  fun w => let '(r, w') := m w in (r, cleanup w').

Notation "x <- m ;; k" := (bind m (fun x => k))
  (at level 100, m at next level, right associativity).
Notation "m ;;; k" := (bind m (fun _ => k))
  (at level 100, right associativity).

Section Path.
Variable env : Env.

Definition isProcessed (site : Site) (issue : string) : M bool :=
  fun w =>
    let '(processed, c) :=
      Dedup.isProcessed (conn env site) (now env) issue (redis w) (cache w) in
    (Normal processed, set_cache c w).

Definition markProcessed (site : Site) (issue : string) : M unit :=
  fun w =>
    let '(r, c) :=
      Dedup.markProcessed (conn env site) (now env) issue (redis w) (cache w) in
    (Normal tt, set_cache c (set_redis r w)).

Definition setLastIssue (issue : string) : M unit :=
  fun w =>
    let '(r, c) :=
      Dedup.setLastIssue (conn env LastIssueWrite) issue (redis w) (cache w) in
    (Normal tt, set_cache c (set_redis r w)).

Definition acquireLock (issue : string) : M bool :=
  fun w =>
    let '(acquired, r, l) :=
      Lock.acquireLock (LOCK_TTL env) (conn env LockAcquire) (now env) issue
                       (redis w) (localLocks w) in
    (Normal acquired, set_localLocks l (set_redis r w)).

Definition releaseLock (issue : string) (w : World) : World :=
  let '(r, l) :=
    Lock.releaseLock (conn env LockRelease) issue (redis w) (localLocks w) in
  set_localLocks l (set_redis r w).

Definition validateLotteryData (data : BaseLotteryData) : M ValidationResult :=
  fun w =>
    let '(result, c, lines) :=
      LotteryValidator.validateLotteryData (conn env LastIssueRead) (redis w)
                                           (cache w) data in
    (Normal result, add_logs lines (set_cache c w)).

Definition shouldSkipProcessing (qihao : string) : M bool :=
  isProcessed SeenCheck qihao.

(** The object literal [enrichedData] of [processDataWithLock]. *)
Definition enrich (data : BaseLotteryData) : LotteryData :=
  let analysis := Analyzer.analyzeFullLotteryData (opennum data) (sum_value data) in
  {| base := data;
     is_da := Analyzer.isDa (Analyzer.sum analysis);
     is_xiao := Analyzer.isXiao (Analyzer.sum analysis);
     is_dan := Analyzer.isDan (Analyzer.sum analysis);
     is_shuang := Analyzer.isShuang (Analyzer.sum analysis);
     is_jida := Analyzer.isJiDa (Analyzer.sum analysis);
     is_jixiao := Analyzer.isJiXiao (Analyzer.sum analysis);
     combination := Analyzer.combination (Analyzer.sum analysis);
     is_baozi := Analyzer.isBaozi (Analyzer.pattern analysis);
     is_duizi := Analyzer.isDuizi (Analyzer.pattern analysis);
     is_shunzi := Analyzer.isShunzi (Analyzer.pattern analysis);
     is_zaliu := Analyzer.isZaliu (Analyzer.pattern analysis);
     is_xiaobian := Analyzer.isXiaoBian (Analyzer.sum analysis);
     is_zhong := Analyzer.isZhong (Analyzer.sum analysis);
     is_dabian := Analyzer.isDaBian (Analyzer.sum analysis);
     is_bian := Analyzer.isBian (Analyzer.sum analysis);
     is_long := Analyzer.isLong (Analyzer.longHuHe analysis);
     is_hu := Analyzer.isHu (Analyzer.longHuHe analysis);
     is_he := Analyzer.isHe (Analyzer.longHuHe analysis) |}.

(** The [create] clause of the upsert. *)
Definition create_row (data : LotteryData) (opentime now : Z) : Db.LotteryRow :=
  {| Db.qihao := qihao data;
     Db.opentime := opentime;
     Db.opennum := opennum data;
     Db.sum_value := sum_value data;
     Db.source := source data;
     Db.is_da := is_da data;
     Db.is_xiao := is_xiao data;
     Db.is_dan := is_dan data;
     Db.is_shuang := is_shuang data;
     Db.is_jida := is_jida data;
     Db.is_jixiao := is_jixiao data;
     Db.combination := combination data;
     Db.is_baozi := is_baozi data;
     Db.is_duizi := is_duizi data;
     Db.is_shunzi := is_shunzi data;
     Db.is_zaliu := is_zaliu data;
     Db.is_xiaobian := is_xiaobian data;
     Db.is_zhong := is_zhong data;
     Db.is_dabian := is_dabian data;
     Db.is_bian := is_bian data;
     Db.is_long := is_long data;
     Db.is_hu := is_hu data;
     Db.is_he := is_he data;
     Db.created_at := now;
     Db.updated_at := now |}.

Definition upsert_call (k : nat) : completion unit :=
  match upsert_outcome env k with
  | None => Normal tt
  | Some error => Throw error
  end.

Definition writeToDatabase (data : LotteryData) : M unit :=
  let opentime := opentime_date env in
  let now := now env in
  fun w =>
    match Retry.withRetry upsert_call 3 with
    | Normal _ =>
        (Normal tt,
         set_db (Db.with_lottery
                   (Db.upsert (qihao data) (create_row data opentime now)
                              Db.no_update)
                   (db w)) w)
    | Throw error =>
        if bool_decide (code error = Some "P2002") then (Normal tt, w)
        else (Throw error, w)
    end.

(** [logSuccessfulWrite] writes one INFO line. *)
Definition logSuccessfulWrite (data : LotteryData) : M unit := ret tt.

Definition updateStatistics (data : LotteryData) : M unit :=
  modify (add_statistics data).

Definition updateOmissionData (data : LotteryData) : M unit :=
  match omission_outcome env with
  | None => modify (fun w => set_db (Omission.updateOmissionData (db w) data) w)
  | Some _ => modify (add_logs [warn "更新遗漏数据失败，不影响主流程"])
  end.

Definition finalizeProcessing (data : LotteryData) : M unit :=
  markProcessed MarkSeen (qihao data) ;;;
  setLastIssue (qihao data) ;;;
  modify (fun w =>
            let '(t, lines) := Tracker.updateLatestIssue (tracker w) (qihao data) in
            add_logs lines (set_tracker t w)) ;;;
  modify (add_backup data) ;;;
  modify (add_emitted data).

(** [new Error(validationResult.error)] *)
Definition validation_error (result : ValidationResult) : JsError :=
  {| code := None; errno := None; status := None;
     message := default EmptyString (error result) |}.

Definition processDataWithLock (data : BaseLotteryData) : M unit :=
  processed <- isProcessed SeenRecheck (qihao data) ;;
  if processed then ret tt
  else
    validationResult <- validateLotteryData data ;;
    if negb (valid validationResult) then
      modify (add_logs [warn "数据校验失败"]) ;;;
      throw (validation_error validationResult)
    else
      let enrichedData := enrich data in
      writeToDatabase enrichedData ;;;
      logSuccessfulWrite enrichedData ;;;
      updateStatistics enrichedData ;;;
      updateOmissionData enrichedData ;;;
      finalizeProcessing enrichedData.

Definition isDuplicateKeyError (error : JsError) : bool :=
  bool_decide (code error = Some "P2002").

Definition handleDuplicateKeyError (data : BaseLotteryData) : M unit :=
  markProcessed DuplicateMark (qihao data).

(** [new LotteryError(ErrorCode.DB_WRITE_FAILED, ...)]; the numeric code
    2001 is written as a string. *)
Definition LotteryError (error : JsError) : JsError :=
  {| code := Some "2001"; errno := None; status := None;
     message := "写入数据失败: " +:+ message error |}.

Definition handleProcessingError (error : JsError) (data : BaseLotteryData)
    : M unit :=
  if isDuplicateKeyError error then handleDuplicateKeyError data
  else
    modify (add_logs [err "❌ 写入数据失败"]) ;;;
    throw (LotteryError error).

Definition processLotteryData (data : BaseLotteryData) : M unit :=
  try_catch
    (fun w =>
       if negb (Tracker.isNewIssue (tracker w) (qihao data)) then ret tt w
       else
         (skip <- shouldSkipProcessing (qihao data) ;;
          if skip then ret tt
          else
            lockAcquired <- acquireLock (qihao data) ;;
            if negb lockAcquired then ret tt
            else
              try_finally (processDataWithLock data) (releaseLock (qihao data))) w)
    (fun error => handleProcessingError error data).

End Path.

End Writer.

(** ** Vocabulary of the properties *)

Module Spec.
Import Js Types Runtime.

Fixpoint count_true (l : list bool) : nat :=
  match l with
  | [] => 0
  | b :: r => (if b then 1 else 0) + count_true r
  end.

Definition exactly_one (l : list bool) : Prop := count_true l = 1%nat.

(** The mutual-exclusion invariants of a stored draw. *)
Definition exclusive (e : LotteryData) : Prop :=
  exactly_one [is_da e; is_xiao e]
  /\ exactly_one [is_dan e; is_shuang e]
  /\ exactly_one [is_baozi e; is_duizi e; is_shunzi e; is_zaliu e]
  /\ exactly_one [is_xiaobian e; is_zhong e; is_dabian e]
  /\ exactly_one [is_long e; is_hu e; is_he e].

Definition exclusive_b (e : LotteryData) : bool :=
  Nat.eqb (count_true [is_da e; is_xiao e]) 1
  && Nat.eqb (count_true [is_dan e; is_shuang e]) 1
  && Nat.eqb (count_true [is_baozi e; is_duizi e; is_shunzi e; is_zaliu e]) 1
  && Nat.eqb (count_true [is_xiaobian e; is_zhong e; is_dabian e]) 1
  && Nat.eqb (count_true [is_long e; is_hu e; is_he e]) 1.

(** The canonical number string of three numbers. *)
Definition render (a b c : Z) : string :=
  num_to_string (Int a) +:+ "+" +:+ num_to_string (Int b) +:+ "+"
  +:+ num_to_string (Int c).

Definition digits : list Z := [0; 1; 2; 3; 4; 5; 6; 7; 8; 9].

Definition draw_of (issue time : string) (a b c : Z) (src : string) : BaseLotteryData :=
  {| qihao := issue; opentime := time; opennum := render a b c;
     sum_value := Int (a + b + c); source := src |}.

(** The hit set H of a stored draw and its two-digit sum bucket. *)
Definition hit_set (data : LotteryData) : gset string :=
  list_to_set (Analyzer.collectHitTypes data).



(** The table the migration creates: the 49 categories, all at zero. *)
Definition zero_table : gmap string Z :=
  list_to_map ((fun type => (type, 0)) <$> StatTypes.getAllStatTypes).

Definition fresh_db : Db.Tables :=
  {| Db.latest_lottery_data := ∅; Db.omission_data := zero_table |}.

Definition first_draw : BaseLotteryData :=
  draw_of "2025001" "2025-12-10 15:30:00" 3 5 8 "S1".

(** Ground truth of the verifier, as the grammar of predictions names it. *)
Definition parity_label (s : Z) : string := if Z.odd s then "单" else "双".
Definition magnitude_label (s : Z) : string := if 14 <=? s then "大" else "小".
Definition combo_label (s : Z) : string := magnitude_label s +:+ parity_label s.
Definition labels : list string := ["大单"; "小单"; "大双"; "小双"].
Definition sums : list Z := Z.of_nat <$> seq 0 28.

(** The verdict of [validateLotteryData], and the checks it is made of. *)
Definition verdict (conn : Redis.Conn) (r : Redis.Store) (cache : Dedup.Cache)
    (data : BaseLotteryData) : ValidationResult :=
  fst (fst (LotteryValidator.validateLotteryData conn r cache data)).

Definition sum_agrees (data : BaseLotteryData) : bool :=
  match Validator.parseOpennum (opennum data) with
  | Some parsed => num_eq (Validator.sum parsed) (sum_value data)
  | None => false
  end.

Definition well_formed (data : BaseLotteryData) : bool :=
  valid (Validator.validateIssue (qihao data))
  && valid (Validator.validateOpennum (opennum data))
  && valid (Validator.validateTime (opentime data)).

(** The draw table of a world. *)
Definition draws (w : Writer.World) : gmap string Db.LotteryRow :=
  Db.latest_lottery_data (Writer.db w).

(** The input forms of the number normalisation, for digits a, b, c. *)
Definition digit (a : Z) : string := num_to_string (Int a).
Definition plus_form (a b c : Z) : string :=
  digit a +:+ "+" +:+ digit b +:+ "+" +:+ digit c.
Definition comma_form (a b c : Z) : string :=
  digit a +:+ "," +:+ digit b +:+ "," +:+ digit c.
Definition space_form (a b c : Z) : string :=
  digit a +:+ " " +:+ digit b +:+ " " +:+ digit c.
Definition packed_form (a b c : Z) : string := digit a +:+ digit b +:+ digit c.

Definition normalizes_all_forms (a b c : Z) : bool :=
  forallb (fun input =>
             bool_decide (Parser.normalizeNumbers (Json.VStr input)
                          = Some (render a b c)))
          [plus_form a b c; comma_form a b c; space_form a b c; packed_form a b c].







(** A rejected read of the draw store. *)
Definition unreachable_database : JsError :=
  {| code := Some "P1001"; errno := None; status := None;
     message := "Can't reach database server" |}.

(** A unique-constraint violation. *)
Definition unique_violation : JsError :=
  {| code := Some "P2002"; errno := None; status := None;
     message := "Unique constraint failed on the fields: (`qihao`)" |}.

(** A world right after start-up and an environment with a working cache
    server, in which every upsert hits the unique constraint. *)
Definition up : Redis.Conn := {| Redis.healthy := true; Redis.throws := false |}.

Definition quiet_world (last : string) (db : Db.Tables) : Writer.World :=
  {| Writer.tracker := {| Tracker.latestIssue := last; Tracker.isInitialized := true |};
     Writer.cache := {| Dedup.localProcessedCache := []; Dedup.lastIssueLocal := None |};
     Writer.localLocks := [];
     Writer.redis := {| Redis.seen := ∅; Redis.last_issue := None; Redis.locks := ∅ |};
     Writer.db := db;
     Writer.statistics := [];
     Writer.backups := [];
     Writer.emitted := [];
     Writer.logs := [] |}.

Definition racing_env : Writer.Env :=
  {| Writer.now := 1765351800000;
     Writer.LOCK_TTL := 3;
     Writer.conn := fun _ => up;
     Writer.opentime_date := 1765380600000;
     Writer.upsert_outcome := fun _ => Some unique_violation;
     Writer.omission_outcome := None |}.

Definition calm_env : Writer.Env :=
  {| Writer.now := 1765351800000;
     Writer.LOCK_TTL := 3;
     Writer.conn := fun _ => up;
     Writer.opentime_date := 1765380600000;
     Writer.upsert_outcome := fun _ => None;
     Writer.omission_outcome := None |}.

(** A draw table that already holds issue 2025001, committed from another
    source with another payload. *)
Definition earlier_row : Db.LotteryRow :=
  Writer.create_row (Writer.enrich (draw_of "2025001" "2025-12-10 15:30:00" 1 2 3 "S0"))
                    1765380600000 1765351790000.

Definition stored_db : Db.Tables :=
  {| Db.latest_lottery_data := {["2025001" := earlier_row]};
     Db.omission_data := zero_table |}.

(** The third scenario of the specification: numbers 3+5+8, declared sum 15. *)
Definition mismatched_draw : BaseLotteryData :=
  {| qihao := "2025003"; opentime := "2025-12-10 15:37:00"; opennum := "3+5+8";
     sum_value := Int 15; source := "S1" |}.

End Spec.

(** * Properties *)

Import Js Types Runtime Spec.

(** ** The enricher *)

Lemma digit_in (a : Z) : 0 <= a <= 9 -> In a digits.
Proof.
  intros H. unfold digits.
  assert (a = 0 \/ a = 1 \/ a = 2 \/ a = 3 \/ a = 4 \/ a = 5 \/ a = 6 \/ a = 7
          \/ a = 8 \/ a = 9) as Hc by lia.
  simpl. intuition.
Qed.

Lemma exclusive_b_sound (e : LotteryData) : exclusive_b e = true -> exclusive e.
Proof.
  unfold exclusive_b, exclusive, exactly_one.
  rewrite !andb_true_iff, !Nat.eqb_eq. tauto.
Qed.

(** The enrichment reads the numbers and the sum only, so the thousand
    triples can be run once and for all. *)
Lemma all_triples_exclusive :
  forallb (fun a => forallb (fun b => forallb (fun c =>
    exclusive_b (Writer.enrich (draw_of EmptyString EmptyString a b c EmptyString)))
    digits) digits) digits = true.
Proof. vm_compute. reflexivity. Qed.

(** C1.  For a draw whose numbers are three digits a, b, c and whose sum is
    a+b+c, the enriched record has exactly one of big/small, exactly one of
    odd/even, exactly one of triple/pair/straight/misc, exactly one of
    small-edge/middle/big-edge and exactly one of dragon/tiger/tie. *)
Theorem enrichment_mutually_exclusive (a b c : Z) (issue time src : string) :
  0 <= a <= 9 -> 0 <= b <= 9 -> 0 <= c <= 9 ->
  exclusive (Writer.enrich (draw_of issue time a b c src)).
Proof.
  intros Ha Hb Hc.
  pose proof all_triples_exclusive as H.
  rewrite forallb_forall in H. specialize (H a (digit_in a Ha)).
  rewrite forallb_forall in H. specialize (H b (digit_in b Hb)).
  rewrite forallb_forall in H. specialize (H c (digit_in c Hc)).
  apply exclusive_b_sound. exact H.
Qed.

Lemma enrichment_mutually_exclusive_witness :
  (0 <= 3 <= 9 /\ 0 <= 5 <= 9 /\ 0 <= 8 <= 9)
  /\ exclusive (Writer.enrich (draw_of "2025001" "2025-12-10 15:30:00" 3 5 8 "S1")).
Proof.
  split; [lia | apply (enrichment_mutually_exclusive 3 5 8); lia].
Defined.

(** The first scenario of the specification: draw 3+5+8 with sum 16. *)
Example enrich_3_5_8 :
  let e := Writer.enrich (draw_of "2025001" "2025-12-10 15:30:00" 3 5 8 "S1") in
  (is_da e, is_xiao e, is_shuang e, is_dan e, combination e)
    = (true, false, true, false, "大双")
  /\ (is_baozi e, is_duizi e, is_shunzi e, is_zaliu e) = (false, false, false, true)
  /\ (is_xiaobian e, is_zhong e, is_dabian e, is_bian e) = (false, true, false, false)
  /\ (is_long e, is_hu e, is_he e) = (false, true, false)
  /\ Analyzer.collectHitTypes e = ["da"; "shuang"; "ds"; "zl"; "zhong"; "hu"; "16"].
Proof. vm_compute. repeat split. Qed.

(** ** The omission engine *)

Lemma lookup_update_fmap (g : string * Z -> Z) (l : list (string * Z)) k v :
  NoDup (l.*1) -> (k, v) ∈ l ->
  Omission.lookup_update k ((fun r => (fst r, g r)) <$> l) = Some (g (k, v)).
Proof.
  induction l as [|[k' v'] l IH]; intros Hnd Hin.
  - inversion Hin.
  - simpl in *. apply NoDup_cons in Hnd as [Hnotin Hnd].
    apply elem_of_cons in Hin as [Heq | Hin].
    + inversion Heq; subst. rewrite bool_decide_eq_true_2; done.
    + rewrite bool_decide_eq_false_2.
      * by apply IH.
      * intros ->. apply Hnotin. apply list_elem_of_fmap. by exists (k, v).
Qed.

Lemma batchUpdateStats_lookup updates (table : gmap string Z) c :
  updates <> [] ->
  Omission.batchUpdateStats updates table !! c
  = (fun count => default count (Omission.lookup_update c updates)) <$> table !! c.
Proof.
  intros Hne. destruct updates; [done|].
  unfold Omission.batchUpdateStats. rewrite map_lookup_imap. by destruct (table !! c).
Qed.


Lemma update_step (db : Db.Tables) (data : LotteryData) c previous :
  Db.omission_data db !! c = Some previous ->
  Db.omission_data (Omission.updateOmissionData db data) !! c
  = Some (if bool_decide (c ∈ hit_set data) then 0 else previous + 1).
Proof.
  intros Hc. unfold Omission.updateOmissionData.
  rewrite bool_decide_eq_false_2.
  2:{ intros Hz. apply map_size_empty_inv in Hz. rewrite Hz in Hc.
      by rewrite lookup_empty in Hc. }
  cbn [Db.with_omission Db.omission_data].
  assert (Hin : (c, previous) ∈ map_to_list (Db.omission_data db))
    by by apply elem_of_map_to_list.
  rewrite batchUpdateStats_lookup.
  - rewrite Hc. cbn [fmap option_fmap option_map].
    rewrite (lookup_update_fmap _ _ c previous);
      [done | apply NoDup_fst_map_to_list | done].
  - intros Hnil. apply fmap_nil_inv in Hnil. rewrite Hnil in Hin. inversion Hin.
Qed.






(** The first scenario of the specification, continued: on the fresh table
    the categories held by 3+5+8 are at 0 afterwards and all others at 1. *)
Example first_draw_counters :
  forallb (fun c =>
    bool_decide
      (Db.omission_data
         (Omission.updateOmissionData fresh_db (Writer.enrich first_draw)) !! c
       = Some (if bool_decide (c ∈ ["da"; "shuang"; "ds"; "zl"; "zhong"; "hu"; "16"])
               then 0 else 1)))
    StatTypes.getAllStatTypes = true.
Proof. vm_compute. reflexivity. Qed.

(** *** The first call on an empty table *)

Lemma upsert_lookup {V : Type} (key k : string) (create : V) (update : V -> V)
    (table : gmap string V) :
  Db.upsert key create update table !! k
  = if bool_decide (key = k)
    then Some (match table !! key with Some row => update row | None => create end)
    else table !! k.
Proof.
  unfold Db.upsert. case_bool_decide as Hk.
  - subst. destruct (table !! k); by rewrite lookup_insert_eq.
  - destruct (table !! key); by rewrite lookup_insert_ne.
Qed.

Lemma upsert_fold_lottery (f : string -> Z) (types : list string) (db : Db.Tables) :
  Db.latest_lottery_data
    (foldl (fun db type => Db.with_omission (Db.upsert type (f type) (fun _ => f type)) db)
           db types)
  = Db.latest_lottery_data db.
Proof.
  revert db. induction types as [|t types IH]; intros db; [done|].
  simpl. by rewrite IH.
Qed.

Lemma upsert_fold_lookup (f : string -> Z) (types : list string) (db : Db.Tables) c :
  Db.omission_data
    (foldl (fun db type => Db.with_omission (Db.upsert type (f type) (fun _ => f type)) db)
           db types) !! c
  = if bool_decide (c ∈ types) then Some (f c) else Db.omission_data db !! c.
Proof.
  revert db. induction types as [|t types IH]; intros db; [done|].
  cbn [foldl]. rewrite IH. cbn [Db.with_omission Db.omission_data].
  rewrite upsert_lookup.
  destruct (decide (c ∈ types)) as [Hin|Hin], (decide (t = c)) as [->|Hne].
  - rewrite !bool_decide_eq_true_2; [done | by apply elem_of_cons; right | done].
  - rewrite !bool_decide_eq_true_2; [done | by apply elem_of_cons; right | done].
  - rewrite (bool_decide_eq_false_2 (c ∈ types)) by done.
    rewrite !bool_decide_eq_true_2; [|by apply elem_of_cons; left|done].
    by destruct (Db.omission_data db !! c).
  - rewrite !bool_decide_eq_false_2; [done | | done | done].
    intros [?|?]%elem_of_cons; congruence.
Qed.

Lemma initialize_lookup (db : Db.Tables) c :
  Db.omission_data (Omission.initializeOmissionData db) !! c
  = if bool_decide (c ∈ StatTypes.getAllStatTypes)
    then Some (Omission.count_or_zero (Omission.calculateYilouDynamic db) c)
    else Db.omission_data db !! c.
Proof. unfold Omission.initializeOmissionData. apply upsert_fold_lookup. Qed.

(** On an empty table the 49 counters are first bootstrapped from the
    stored draws, and the same rule is then applied to the bootstrapped
    values. *)
Lemma update_step_bootstrap (db : Db.Tables) (data : LotteryData) c :
  Db.omission_data db = ∅ ->
  c ∈ StatTypes.getAllStatTypes ->
  Db.omission_data (Omission.updateOmissionData db data) !! c
  = Some (if bool_decide (c ∈ hit_set data) then 0
          else Omission.count_or_zero (Omission.calculateYilouDynamic db) c + 1).
Proof.
  intros He Hc.
  assert (Hi : Db.omission_data (Omission.initializeOmissionData db) !! c
               = Some (Omission.count_or_zero (Omission.calculateYilouDynamic db) c)).
  { rewrite initialize_lookup. by rewrite bool_decide_eq_true_2. }
  pose proof (update_step (Omission.initializeOmissionData db) data c _ Hi) as Hs.
  unfold Omission.updateOmissionData in *.
  rewrite (bool_decide_eq_true_2 (size (Db.omission_data db) = 0%nat)).
  2:{ rewrite He. apply map_size_empty. }
  rewrite bool_decide_eq_false_2 in Hs; [exact Hs|].
  intros Hz. apply map_size_empty_inv in Hz. rewrite Hz in Hi.
  by rewrite lookup_empty in Hi.
Qed.

Lemma updateOmissionData_lottery (db : Db.Tables) (data : LotteryData) :
  Db.latest_lottery_data (Omission.updateOmissionData db data)
  = Db.latest_lottery_data db.
Proof.
  unfold Omission.updateOmissionData. cbn [Db.with_omission Db.latest_lottery_data].
  case_bool_decide; [|done]. unfold Omission.initializeOmissionData.
  apply upsert_fold_lottery.
Qed.

(** ** The prediction verifier *)

Lemma sum_in (s : Z) : 0 <= s <= 27 -> In s sums.
Proof.
  intros H. unfold sums. apply list_elem_of_In, list_elem_of_fmap.
  exists (Z.to_nat s). split; [lia|]. apply elem_of_seq. lia.
Qed.

Lemma ground_truth_table :
  forallb (fun s =>
    String.eqb (Predict.calculateResultValue DANSHUANG (Int s)) (parity_label s)
    && String.eqb (Predict.calculateResultValue DAXIAO (Int s)) (magnitude_label s)
    && String.eqb (Predict.calculateResultValue COMBINATION (Int s)) (combo_label s)
    && String.eqb (Predict.calculateResultValue KILL (Int s)) (combo_label s)
    && bool_decide (combo_label s ∈ labels)) sums = true.
Proof. vm_compute. reflexivity. Qed.

Lemma combo_parts (l1 l2 : string) :
  In l1 labels -> In l2 labels ->
  map trim (split_on "," (l1 +:+ "," +:+ l2)) = [l1; l2].
Proof.
  unfold labels. simpl.
  intros [<-|[<-|[<-|[<-|[]]]]] [<-|[<-|[<-|[<-|[]]]]]; vm_compute; reflexivity.
Qed.

(** C3.  For an actual sum s in 0..27 the ground truth is: parity '单' iff s
    is odd, else '双'; magnitude '大' iff s >= 14, else '小'; combo and kill
    the label made of both, one of 大单, 小单, 大双, 小双.  The hit of a parity
    or magnitude prediction is string equality with the ground truth, a
    combo prediction of two labels hits iff the ground truth is one of them,
    and a kill prediction hits iff the ground truth differs from it. *)
Theorem verifier_ground_truth_and_hit (s : Z) :
  0 <= s <= 27 ->
  (Predict.calculateResultValue DANSHUANG (Int s) = (if Z.odd s then "单" else "双")
   /\ Predict.calculateResultValue DAXIAO (Int s) = (if 14 <=? s then "大" else "小")
   /\ Predict.calculateResultValue COMBINATION (Int s) = combo_label s
   /\ Predict.calculateResultValue KILL (Int s) = combo_label s
   /\ combo_label s ∈ labels)
  /\ (forall predicted actual,
        (Predict.calculateHit DANSHUANG predicted actual = true <-> predicted = actual)
        /\ (Predict.calculateHit DAXIAO predicted actual = true <-> predicted = actual)
        /\ (Predict.calculateHit KILL predicted actual = true <-> predicted <> actual))
  /\ (forall l1 l2 actual,
        In l1 labels -> In l2 labels ->
        (Predict.calculateHit COMBINATION (l1 +:+ "," +:+ l2) actual = true
         <-> actual = l1 \/ actual = l2)).
Proof.
  intros Hs. split; [|split].
  - pose proof ground_truth_table as H. rewrite forallb_forall in H.
    specialize (H s (sum_in s Hs)).
    rewrite !andb_true_iff, !String.eqb_eq, bool_decide_eq_true in H.
    unfold parity_label, magnitude_label in H. tauto.
  - intros predicted actual. unfold Predict.calculateHit.
    rewrite negb_true_iff, String.eqb_eq, String.eqb_neq. tauto.
  - intros l1 l2 actual H1 H2. unfold Predict.calculateHit.
    rewrite (combo_parts l1 l2 H1 H2). unfold Predict.includes. simpl.
    rewrite !orb_true_iff, !String.eqb_eq. intuition discriminate.
Qed.

Lemma verifier_ground_truth_and_hit_witness :
  0 <= 19 <= 27
  /\ Predict.calculateResultValue COMBINATION (Int 19) = "大单"
  /\ Predict.calculateHit COMBINATION "大单,小双" "大单" = true.
Proof.
  split; [lia|].
  destruct (verifier_ground_truth_and_hit 19) as ((_ & _ & Hc & _) & _ & Hhit); [lia|].
  split; [exact Hc|].
  apply (Hhit "大单" "小双" "大单"); [simpl; tauto | simpl; tauto | by left].
Defined.

(** The fourth scenario of the specification: a commit with sum 19. *)
Example verify_sum_19 :
  let truth t := Predict.calculateResultValue t (Int 19) in
  (truth DANSHUANG, truth DAXIAO, truth COMBINATION) = ("单", "大", "大单")
  /\ Predict.calculateHit DANSHUANG "单" (truth DANSHUANG) = true
  /\ Predict.calculateHit DAXIAO "小" (truth DAXIAO) = false
  /\ Predict.calculateHit COMBINATION "大单,小双" (truth COMBINATION) = true
  /\ Predict.calculateHit KILL "大单" (truth KILL) = false.
Proof. vm_compute. repeat split. Qed.

(** ** The issue tracker *)

(** C10.  The [try] block of [isNewIssue] always completes, so the branch
    that would let an issue through on a parse failure is never taken and
    its warning is never logged; for an initialised tracker an issue that
    parses to no number is answered with false. *)
Theorem unparseable_issue_is_filtered (t : Tracker.IssueTracker) (qihao : string) :
  (exists r, Tracker.isNewIssue_try t qihao = Normal r)
  /\ snd (Tracker.isNewIssue_log t qihao) = []
  /\ (Tracker.isInitialized t = true -> parseInt qihao = NaN ->
      Tracker.isNewIssue t qihao = false).
Proof.
  split; [|split].
  - unfold Tracker.isNewIssue_try. eauto.
  - unfold Tracker.isNewIssue_log, Tracker.isNewIssue_try.
    by destruct (Tracker.isInitialized t).
  - intros Hi Hn.
    unfold Tracker.isNewIssue, Tracker.isNewIssue_log, Tracker.isNewIssue_try.
    rewrite Hi, Hn. cbn. unfold num_gt, num_lt.
    destruct (parseInt (Tracker.latestIssue t)); reflexivity.
Qed.

Lemma unparseable_issue_is_filtered_witness :
  (Tracker.isInitialized
     {| Tracker.latestIssue := "2025001"; Tracker.isInitialized := true |} = true
   /\ parseInt "abc" = NaN)
  /\ Tracker.isNewIssue
       {| Tracker.latestIssue := "2025001"; Tracker.isInitialized := true |} "abc"
     = false.
Proof.
  split; [split; reflexivity|].
  apply (unparseable_issue_is_filtered
           {| Tracker.latestIssue := "2025001"; Tracker.isInitialized := true |} "abc");
    reflexivity.
Defined.

(** C6, as the specification states it, fails: after a rejected read the
    tracker reports ready, and it does filter (here the issue 0000000). *)
Lemma failed_initialize_reports_ready :
  let t := fst (Tracker.initialize (Tracker.Rejected unreachable_database) Tracker.reset) in
  Tracker.isReady t = true /\ Tracker.isNewIssue t "0000000" = false.
Proof. vm_compute. split; reflexivity. Qed.

(** C6, amended.  When the read of the draw store is rejected, [initialize]
    sets the high-water mark to "0", logs one warning and records the
    tracker as ready, exactly as for an empty store; [isReady] then reports
    true and [isNewIssue] lets through the issues that parse to a number
    above 0. *)
Theorem failed_initialize_falls_back_to_zero (error : JsError) (t : Tracker.IssueTracker) :
  let t' := fst (Tracker.initialize (Tracker.Rejected error) t) in
  Tracker.latestIssue t' = "0"
  /\ Tracker.isReady t' = true
  /\ t' = fst (Tracker.initialize Tracker.NoRow t)
  /\ snd (Tracker.initialize (Tracker.Rejected error) t)
     = [warn "期号追踪器初始化失败，使用默认值"]
  /\ (forall qihao, Tracker.isNewIssue t' qihao = num_gt (parseInt qihao) (Int 0)).
Proof. simpl. repeat split. Qed.

Lemma accepted_update_sets_issue (t : Tracker.IssueTracker) (qihao : string) :
  Tracker.isInitialized t = true ->
  Tracker.isNewIssue t qihao = true ->
  fst (Tracker.updateLatestIssue t qihao)
  = {| Tracker.latestIssue := qihao; Tracker.isInitialized := true |}.
Proof.
  unfold Tracker.isNewIssue, Tracker.isNewIssue_log, Tracker.isNewIssue_try,
    Tracker.updateLatestIssue, Tracker.updateLatestIssue_try.
  intros Hi. rewrite Hi. cbn [negb fst]. intros ->. reflexivity.
Qed.

(** ** Validation *)

Lemma validateDataSum_valid (opennum : string) (sumValue : jsnum) :
  valid (LotteryValidator.validateDataSum opennum sumValue)
  = match Validator.parseOpennum opennum with
    | Some parsed => num_eq (Validator.sum parsed) sumValue
    | None => false
    end.
Proof.
  unfold LotteryValidator.validateDataSum.
  destruct (Validator.parseOpennum opennum) as [p|] eqn:E; [|done].
  unfold Validator.validateSum.
  assert (Validator.sum p
          = num_add (num_add (Validator.a p) (Validator.b p)) (Validator.c p)) as ->.
  { unfold Validator.parseOpennum in E.
    destruct (map parseInt (split_on "+" opennum)) as [|x [|y [|z [|]]]];
      try discriminate.
    by inversion E. }
  by destruct (num_eq _ sumValue).
Qed.

Lemma verdict_of_mismatch conn r cache (data : BaseLotteryData) :
  sum_agrees data = false -> valid (verdict conn r cache data) = false.
Proof.
  unfold verdict, sum_agrees, LotteryValidator.validateLotteryData,
    LotteryValidator.validateDataIssue, LotteryValidator.validateDataOpennum,
    LotteryValidator.validateDataTime.
  pose proof (validateDataSum_valid (opennum data) (sum_value data)) as Hs.
  intros Hm. rewrite Hm in Hs.
  destruct (valid (Validator.validateIssue _)) eqn:E1; [|simpl; done].
  destruct (valid (Validator.validateOpennum _)) eqn:E2; [|simpl; done].
  destruct (valid (Validator.validateTime _)) eqn:E3; [|simpl; done].
  simpl. by rewrite Hs.
Qed.

Lemma verdict_of_valid conn r cache (data : BaseLotteryData) :
  well_formed data = true -> sum_agrees data = true ->
  verdict conn r cache data = Validator.ok.
Proof.
  unfold verdict, sum_agrees, well_formed, LotteryValidator.validateLotteryData,
    LotteryValidator.validateDataIssue, LotteryValidator.validateDataOpennum,
    LotteryValidator.validateDataTime, LotteryValidator.checkIssueIncrement.
  pose proof (validateDataSum_valid (opennum data) (sum_value data)) as Hs.
  intros Hw Ha. rewrite !andb_true_iff in Hw. destruct Hw as [[-> ->] ->].
  rewrite Ha in Hs. rewrite Hs. simpl.
  destruct (Dedup.getLastIssue conn r cache) as [[last|] c']; [|done].
  by destruct (_ && _).
Qed.

Lemma old_issue_only_warns conn r cache (data : BaseLotteryData) (last : string) :
  well_formed data = true -> sum_agrees data = true ->
  fst (Dedup.getLastIssue conn r cache) = Some last ->
  last <> EmptyString ->
  Validator.isIssueIncreasing (qihao data) last = false ->
  LotteryValidator.validateLotteryData conn r cache data
  = (Validator.ok, snd (Dedup.getLastIssue conn r cache),
     [warn "期号未递增，可能是旧数据"]).
Proof.
  unfold sum_agrees, well_formed, LotteryValidator.validateLotteryData,
    LotteryValidator.validateDataIssue, LotteryValidator.validateDataOpennum,
    LotteryValidator.validateDataTime, LotteryValidator.checkIssueIncrement.
  pose proof (validateDataSum_valid (opennum data) (sum_value data)) as Hs.
  intros Hw Ha Hl Hne Hinc. rewrite !andb_true_iff in Hw. destruct Hw as [[-> ->] ->].
  rewrite Ha in Hs. rewrite Hs. simpl.
  destruct (Dedup.getLastIssue conn r cache) as [o c'] eqn:Eg. simpl in *. subst o.
  rewrite Hinc. simpl.
  destruct (String.eqb last EmptyString) eqn:Ee; [by apply String.eqb_eq in Ee|done].
Qed.

(** ** The write path *)

(** One step of symbolic execution of the writer's monad. *)
Ltac exec :=
  cbv beta iota zeta delta
    [Writer.processLotteryData Writer.try_catch Writer.try_finally
     Writer.shouldSkipProcessing Writer.processDataWithLock Writer.bind Writer.ret
     Writer.throw Writer.modify Writer.isProcessed Writer.acquireLock Writer.releaseLock
     Writer.validateLotteryData Writer.markProcessed Writer.setLastIssue
     Writer.finalizeProcessing Writer.logSuccessfulWrite Writer.updateStatistics
     Writer.updateOmissionData Writer.writeToDatabase Writer.handleProcessingError
     Writer.handleDuplicateKeyError Writer.isDuplicateKeyError
     Writer.set_tracker Writer.set_cache Writer.set_localLocks Writer.set_redis
     Writer.set_db Writer.add_statistics Writer.add_backup Writer.add_emitted
     Writer.add_logs negb];
  cbn [Writer.tracker Writer.cache Writer.localLocks Writer.redis Writer.db
       Writer.statistics Writer.backups Writer.emitted Writer.logs fst snd].

(** Names the results of the cache and tracker calls that remain. *)
Ltac split_world :=
  repeat match goal with
    | |- context [Lock.releaseLock ?a ?b ?c ?d] =>
        destruct (Lock.releaseLock a b c d) as [? ?]; exec
    | |- context [Dedup.markProcessed ?a ?b ?c ?d ?e] =>
        destruct (Dedup.markProcessed a b c d e) as [? ?]; exec
    | |- context [Dedup.setLastIssue ?a ?b ?c ?d] =>
        destruct (Dedup.setLastIssue a b c d) as [? ?]; exec
    | |- context [Tracker.updateLatestIssue ?a ?b] =>
        destruct (Tracker.updateLatestIssue a b) as [? ?]; exec
    end.

Lemma get_set_same (k : string) (v : Z) (m : JsMap.t) :
  JsMap.get k (JsMap.set k v m) = Some v.
Proof.
  induction m as [|[k' v'] m IH]; simpl.
  - by rewrite bool_decide_eq_true_2.
  - case_bool_decide as Hk; simpl.
    + by rewrite bool_decide_eq_true_2.
    + by rewrite bool_decide_eq_false_2.
Qed.

Lemma markProcessedLocally_marks (now : Z) (issue : string) (c : Dedup.Cache) :
  JsMap.get issue (Dedup.localProcessedCache (Dedup.markProcessedLocally now issue c))
  = Some now.
Proof.
  unfold Dedup.markProcessedLocally, Dedup.with_map.
  cbn [Dedup.localProcessedCache]. apply get_set_same.
Qed.

Lemma mark_then_point (conn1 conn2 : Redis.Conn) (now : Z) (issue : string)
    (r : Redis.Store) (c : Dedup.Cache) :
  let '(r2, c2) := Dedup.markProcessed conn1 now issue r c in
  let '(r3, c3) := Dedup.setLastIssue conn2 issue r2 c2 in
  JsMap.get issue (Dedup.localProcessedCache c3) = Some now
  /\ Dedup.lastIssueLocal c3 = Some issue
  /\ (Redis.healthy conn1 = true -> Redis.throws conn1 = false -> issue ∈ Redis.seen r3)
  /\ (Redis.healthy conn2 = true -> Redis.throws conn2 = false ->
      Redis.last_issue r3 = Some issue).
Proof.
  unfold Dedup.markProcessed, Dedup.setLastIssue.
  pose proof (markProcessedLocally_marks now issue c) as Hm.
  set (c' := Dedup.markProcessedLocally now issue c) in *. clearbody c'.
  destruct (Redis.healthy conn1), (Redis.throws conn1), (Redis.healthy conn2),
    (Redis.throws conn2);
    cbn [negb Dedup.localProcessedCache Dedup.lastIssueLocal
         Redis.set_seen Redis.set_last Redis.seen Redis.last_issue].
  all: repeat split; try done.
  all: intros _ _; apply elem_of_union_l, elem_of_singleton; reflexivity.
Qed.

Lemma releaseLock_keeps (conn : Redis.Conn) (issue : string) (r : Redis.Store)
    (l : JsMap.t) :
  Redis.seen (fst (Lock.releaseLock conn issue r l)) = Redis.seen r
  /\ Redis.last_issue (fst (Lock.releaseLock conn issue r l)) = Redis.last_issue r.
Proof.
  unfold Lock.releaseLock.
  by destruct (Redis.healthy conn), (Redis.throws conn).
Qed.

(** A unique-constraint violation is not retried: the first one ends the
    retry loop and is what [withRetry] throws. *)
Lemma unique_violation_ends_retry {A : Type} (fn : nat -> completion A)
    (error : JsError) (maxAttempts : nat) :
  fn 1%nat = Throw error -> code error = Some "P2002" ->
  Retry.withRetry fn maxAttempts = Throw error.
Proof.
  intros Hfn Hcode.
  unfold Retry.withRetry, Retry.retryAsync.
  destruct (maxAttempts - 1)%nat; cbn [Retry.retry_from]; rewrite Hfn;
    unfold Retry.defaultShouldRetry, Retry.code_is; rewrite Hcode;
    by rewrite bool_decide_eq_true_2.
Qed.

Lemma duplicate_reaches_commit (env : Writer.Env) (data : BaseLotteryData)
    (w : Writer.World) (error : JsError) c1 r1 l1 c2 :
  Retry.withRetry (Writer.upsert_call env) 3 = Throw error ->
  code error = Some "P2002" ->
  Tracker.isNewIssue (Writer.tracker w) (qihao data) = true ->
  Dedup.isProcessed (Writer.conn env Writer.SeenCheck) (Writer.now env) (qihao data)
                    (Writer.redis w) (Writer.cache w) = (false, c1) ->
  Lock.acquireLock (Writer.LOCK_TTL env) (Writer.conn env Writer.LockAcquire)
                   (Writer.now env) (qihao data) (Writer.redis w) (Writer.localLocks w)
  = (true, r1, l1) ->
  Dedup.isProcessed (Writer.conn env Writer.SeenRecheck) (Writer.now env) (qihao data)
                    r1 c1 = (false, c2) ->
  valid (verdict (Writer.conn env Writer.LastIssueRead) r1 c2 data) = true ->
  exists w',
    Writer.processLotteryData env data w = (Normal tt, w')
    /\ JsMap.get (qihao data) (Dedup.localProcessedCache (Writer.cache w'))
       = Some (Writer.now env)
    /\ Dedup.lastIssueLocal (Writer.cache w') = Some (qihao data)
    /\ (Redis.healthy (Writer.conn env Writer.MarkSeen) = true ->
        Redis.throws (Writer.conn env Writer.MarkSeen) = false ->
        qihao data ∈ Redis.seen (Writer.redis w'))
    /\ (Redis.healthy (Writer.conn env Writer.LastIssueWrite) = true ->
        Redis.throws (Writer.conn env Writer.LastIssueWrite) = false ->
        Redis.last_issue (Writer.redis w') = Some (qihao data))
    /\ Writer.tracker w'
       = fst (Tracker.updateLatestIssue (Writer.tracker w) (qihao data))
    /\ Writer.emitted w' = Writer.emitted w ++ [Writer.enrich data]
    /\ draws w' = draws w.
Proof.
  intros Hretry Hcode Hnew Hseen Hlock Hseen2 Hvalid.
  unfold verdict in Hvalid.
  destruct (LotteryValidator.validateLotteryData
              (Writer.conn env Writer.LastIssueRead) r1 c2 data)
    as [[res c3] lines] eqn:Ev.
  simpl in Hvalid.
  destruct (Tracker.updateLatestIssue (Writer.tracker w) (qihao data)) as [t' tl] eqn:Et.
  pose proof (mark_then_point (Writer.conn env Writer.MarkSeen)
                (Writer.conn env Writer.LastIssueWrite) (Writer.now env)
                (qihao data) r1 c3) as Hfin.
  destruct (Dedup.markProcessed (Writer.conn env Writer.MarkSeen) (Writer.now env)
              (qihao data) r1 c3) as [r2 c4] eqn:Em.
  destruct (Dedup.setLastIssue (Writer.conn env Writer.LastIssueWrite)
              (qihao data) r2 c4) as [r3 c5] eqn:El.
  destruct Hfin as (Hget & Hlast & Hs & Hp).
  change (base (Writer.enrich data)) with data.
  exec. change (base (Writer.enrich data)) with data.
  rewrite Hnew. exec. rewrite Hseen. exec. rewrite Hlock. exec.
  rewrite Hseen2. exec. rewrite Ev. exec. rewrite Hvalid. exec.
  rewrite Hretry, Hcode. rewrite bool_decide_eq_true_2 by done. exec.
  destruct (Writer.omission_outcome env) eqn:Eo; exec.
  all: rewrite Em; exec; rewrite El; exec; rewrite Et; exec.
  all: pose proof (releaseLock_keeps
                     (Writer.conn env Writer.LockRelease) (qihao data) r3 l1) as [Hk1 Hk2].
  all: destruct (Lock.releaseLock _ _ _ _) as [r4 l4] eqn:Er; exec.
  all: eexists; split; [reflexivity|]; exec.
  all: cbn [fst] in Hk1, Hk2; rewrite Hk1, Hk2.
  all: unfold draws; exec; cbn [Db.latest_lottery_data].
  all: rewrite ?updateOmissionData_lottery; repeat split; done.
Qed.

Lemma duplicate_never_surfaces (env : Writer.Env) (data : BaseLotteryData)
    (w : Writer.World) (error : JsError) :
  Retry.withRetry (Writer.upsert_call env) 3 = Throw error ->
  code error = Some "P2002" ->
  well_formed data = true -> sum_agrees data = true ->
  fst (Writer.processLotteryData env data w) = Normal tt.
Proof.
  intros Hretry Hcode Hw Ha. exec.
  destruct (Tracker.isNewIssue _ _); exec; [|done].
  destruct (Dedup.isProcessed _ _ _ _ _) as [[] c1]; exec; [done|].
  destruct (Lock.acquireLock _ _ _ _ _ _) as [[[] r1] l1]; exec; [|done].
  destruct (Dedup.isProcessed _ _ _ _ _) as [[] c2]; exec.
  { split_world. done. }
  pose proof (verdict_of_valid (Writer.conn env Writer.LastIssueRead) r1 c2 data Hw Ha)
    as Hvalid.
  unfold verdict in Hvalid.
  destruct (LotteryValidator.validateLotteryData _ _ _ _) as [[res c3] lines]; exec.
  cbn [fst] in Hvalid. subst res. unfold Validator.ok. cbn [valid]. exec.
  rewrite Hretry, Hcode. rewrite bool_decide_eq_true_2 by done. exec.
  destruct (Writer.omission_outcome env); exec; split_world; done.
Qed.

(** C4.  When the upsert ends in a unique-constraint violation (P2002),
    [writeToDatabase] returns normally with the world untouched, and a valid
    draw never makes [processLotteryData] throw; when the draw got as far as
    the write, processing goes on: the issue is marked in the seen-set, the
    last-issue pointer and the tracker are updated and the data-written
    event is emitted, while the draw table stays as it was. *)
Theorem unique_violation_is_success (env : Writer.Env) (data : BaseLotteryData)
    (w : Writer.World) (error : JsError) :
  Retry.withRetry (Writer.upsert_call env) 3 = Throw error ->
  code error = Some "P2002" ->
  Writer.writeToDatabase env (Writer.enrich data) w = (Normal tt, w)
  /\ (well_formed data = true -> sum_agrees data = true ->
      fst (Writer.processLotteryData env data w) = Normal tt)
  /\ (forall c1 r1 l1 c2,
        well_formed data = true -> sum_agrees data = true ->
        Tracker.isNewIssue (Writer.tracker w) (qihao data) = true ->
        Dedup.isProcessed (Writer.conn env Writer.SeenCheck) (Writer.now env)
                          (qihao data) (Writer.redis w) (Writer.cache w) = (false, c1) ->
        Lock.acquireLock (Writer.LOCK_TTL env) (Writer.conn env Writer.LockAcquire)
                         (Writer.now env) (qihao data) (Writer.redis w)
                         (Writer.localLocks w) = (true, r1, l1) ->
        Dedup.isProcessed (Writer.conn env Writer.SeenRecheck) (Writer.now env)
                          (qihao data) r1 c1 = (false, c2) ->
        exists w',
          Writer.processLotteryData env data w = (Normal tt, w')
          /\ JsMap.get (qihao data) (Dedup.localProcessedCache (Writer.cache w'))
             = Some (Writer.now env)
          /\ Dedup.lastIssueLocal (Writer.cache w') = Some (qihao data)
          /\ (Redis.healthy (Writer.conn env Writer.MarkSeen) = true ->
              Redis.throws (Writer.conn env Writer.MarkSeen) = false ->
              qihao data ∈ Redis.seen (Writer.redis w'))
          /\ (Redis.healthy (Writer.conn env Writer.LastIssueWrite) = true ->
              Redis.throws (Writer.conn env Writer.LastIssueWrite) = false ->
              Redis.last_issue (Writer.redis w') = Some (qihao data))
          /\ Writer.tracker w'
             = fst (Tracker.updateLatestIssue (Writer.tracker w) (qihao data))
          /\ (Tracker.isInitialized (Writer.tracker w) = true ->
              Tracker.latestIssue (Writer.tracker w') = qihao data)
          /\ Writer.emitted w' = Writer.emitted w ++ [Writer.enrich data]
          /\ draws w' = draws w).
Proof.
  intros Hretry Hcode. split; [|split].
  - unfold Writer.writeToDatabase. rewrite Hretry, Hcode.
    by rewrite bool_decide_eq_true_2.
  - intros Hw Ha. by apply (duplicate_never_surfaces env data w error).
  - intros c1 r1 l1 c2 Hw Ha Hnew Hseen Hlock Hseen2.
    destruct (duplicate_reaches_commit env data w error c1 r1 l1 c2)
      as (w' & Hrun & Hget & Hlast & Hs & Hp & Ht & He & Hd); try done.
    { by rewrite verdict_of_valid. }
    exists w'. repeat split; try done.
    intros Hi. rewrite Ht. by rewrite accepted_update_sets_issue.
Qed.

Lemma unique_violation_is_success_witness :
  (Retry.withRetry (Writer.upsert_call racing_env) 3 = Throw unique_violation
   /\ code unique_violation = Some "P2002"
   /\ well_formed first_draw = true /\ sum_agrees first_draw = true)
  /\ fst (Writer.processLotteryData racing_env first_draw
            (quiet_world "2025000" fresh_db)) = Normal tt
  /\ exists w',
       Writer.processLotteryData racing_env first_draw (quiet_world "2025000" fresh_db)
       = (Normal tt, w')
       /\ Tracker.latestIssue (Writer.tracker w') = "2025001"
       /\ Writer.emitted w' = [Writer.enrich first_draw].
Proof.
  split; [repeat split; vm_compute; reflexivity|].
  destruct (unique_violation_is_success racing_env first_draw
              (quiet_world "2025000" fresh_db) unique_violation)
    as (_ & Hquiet & Hcommit); [vm_compute; reflexivity | reflexivity |].
  split; [apply Hquiet; vm_compute; reflexivity|].
  destruct (Hcommit
              (Writer.cache (quiet_world "2025000" fresh_db))
              (Redis.set_locks (fun s => {["2025001"]} ∪ s)
                 (Writer.redis (quiet_world "2025000" fresh_db)))
              []
              (Writer.cache (quiet_world "2025000" fresh_db)))
    as (w' & Hrun & _ & _ & _ & _ & _ & Htracker & Hemitted & _);
    try (vm_compute; reflexivity).
  exists w'. split; [exact Hrun|]. split; [by apply Htracker|exact Hemitted].
Defined.

(** A unique-constraint violation at the first attempt is such an ending
    of the upsert. *)
Example first_attempt_violation :
  Retry.withRetry (Writer.upsert_call racing_env) 3 = Throw unique_violation.
Proof. by apply unique_violation_ends_retry. Qed.

(** *** Rows that are already stored *)

Lemma upsert_existing_is_noop {V : Type} (key : string) (create row : V)
    (table : gmap string V) :
  table !! key = Some row ->
  Db.upsert key create Db.no_update table = table.
Proof.
  intros Hk. unfold Db.upsert, Db.no_update. rewrite Hk. by apply insert_id.
Qed.

Lemma upsert_keeps_rows {V : Type} (key k : string) (create row : V)
    (table : gmap string V) :
  table !! k = Some row ->
  Db.upsert key create Db.no_update table !! k = Some row.
Proof.
  intros Hk. rewrite upsert_lookup. case_bool_decide as He; [|done].
  subst. by rewrite Hk.
Qed.

Lemma stored_rows_survive (env : Writer.Env) (data : BaseLotteryData)
    (w : Writer.World) (key : string) (row : Db.LotteryRow) :
  draws w !! key = Some row ->
  draws (snd (Writer.processLotteryData env data w)) !! key = Some row.
Proof.
  intros Hrow. unfold draws in *.
  exec.
  destruct (Tracker.isNewIssue _ _); exec; [|done].
  destruct (Dedup.isProcessed _ _ _ _ _) as [[] c1]; exec; [done|].
  destruct (Lock.acquireLock _ _ _ _ _ _) as [[[] r1] l1]; exec; [|done].
  destruct (Dedup.isProcessed _ _ _ _ _) as [[] c2]; exec.
  { split_world. done. }
  destruct (LotteryValidator.validateLotteryData _ _ _ _) as [[res c3] lines]; exec.
  destruct (valid res); exec.
  - destruct (Retry.withRetry _ _) as [[]|error]; exec.
    + destruct (Writer.omission_outcome env); exec; split_world;
        cbn [Db.with_lottery Db.latest_lottery_data];
        rewrite ?updateOmissionData_lottery; cbn [Db.with_lottery Db.latest_lottery_data];
        by apply upsert_keeps_rows.
    + destruct (bool_decide (code error = Some "P2002")) eqn:Ep; exec.
      * destruct (Writer.omission_outcome env); exec; split_world;
          rewrite ?updateOmissionData_lottery; done.
      * split_world. rewrite Ep. exec. done.
  - split_world. unfold Writer.validation_error.
    cbn [code]. rewrite bool_decide_eq_false_2 by done. exec. done.
Qed.

Lemma stored_issue_freezes_table (env : Writer.Env) (data : BaseLotteryData)
    (w : Writer.World) (row : Db.LotteryRow) :
  draws w !! qihao data = Some row ->
  draws (snd (Writer.processLotteryData env data w)) = draws w.
Proof.
  intros Hrow. unfold draws in *.
  exec.
  destruct (Tracker.isNewIssue _ _); exec; [|done].
  destruct (Dedup.isProcessed _ _ _ _ _) as [[] c1]; exec; [done|].
  destruct (Lock.acquireLock _ _ _ _ _ _) as [[[] r1] l1]; exec; [|done].
  destruct (Dedup.isProcessed _ _ _ _ _) as [[] c2]; exec.
  { split_world. done. }
  destruct (LotteryValidator.validateLotteryData _ _ _ _) as [[res c3] lines]; exec.
  destruct (valid res); exec.
  - destruct (Retry.withRetry _ _) as [[]|error]; exec.
    + change (base (Writer.enrich data)) with data.
      destruct (Writer.omission_outcome env); exec; split_world;
        cbn [Db.with_lottery Db.latest_lottery_data];
        rewrite ?updateOmissionData_lottery; cbn [Db.with_lottery Db.latest_lottery_data];
        by apply (upsert_existing_is_noop _ _ row).
    + destruct (bool_decide (code error = Some "P2002")) eqn:Ep; exec.
      * destruct (Writer.omission_outcome env); exec; split_world;
          rewrite ?updateOmissionData_lottery; done.
      * split_world. rewrite Ep. exec. done.
  - split_world. unfold Writer.validation_error.
    cbn [code]. rewrite bool_decide_eq_false_2 by done. exec. done.
Qed.

(** C9.  An upsert whose update clause is empty leaves a stored row as it
    is, so processing a raw draw, whatever its payload and whatever the
    outside world does, changes no column of any row already in the draw
    table; when the issue of the draw is already stored the whole table
    stays the same. *)
Theorem committed_row_is_never_overwritten (env : Writer.Env) (data : BaseLotteryData)
    (w : Writer.World) (row : Db.LotteryRow) :
  draws w !! qihao data = Some row ->
  (forall create,
      Db.upsert (qihao data) create Db.no_update (draws w) = draws w)
  /\ draws (snd (Writer.processLotteryData env data w)) !! qihao data = Some row
  /\ draws (snd (Writer.processLotteryData env data w)) = draws w
  /\ (forall key other,
        draws w !! key = Some other ->
        draws (snd (Writer.processLotteryData env data w)) !! key = Some other).
Proof.
  intros Hrow. split; [|split; [|split]].
  - intros create. by apply (upsert_existing_is_noop _ _ row).
  - by apply stored_rows_survive.
  - by apply (stored_issue_freezes_table env data w row).
  - intros key other. by apply stored_rows_survive.
Qed.

Lemma committed_row_is_never_overwritten_witness :
  draws (quiet_world "2025000" stored_db) !! qihao first_draw = Some earlier_row
  /\ draws (snd (Writer.processLotteryData calm_env first_draw
                   (quiet_world "2025000" stored_db))) !! "2025001"
     = Some earlier_row
  /\ Db.opennum earlier_row = "1+2+3".
Proof.
  split; [vm_compute; reflexivity|]. split; [|reflexivity].
  destruct (committed_row_is_never_overwritten calm_env first_draw
              (quiet_world "2025000" stored_db) earlier_row) as (_ & Hrow & _);
    [vm_compute; reflexivity | exact Hrow].
Defined.

(** The re-processed draw does go through the write path here: it is
    admitted, written with the empty update clause, and committed. *)
Example reprocessing_reaches_the_write :
  let w' := snd (Writer.processLotteryData calm_env first_draw
                   (quiet_world "2025000" stored_db)) in
  Writer.emitted w' = [Writer.enrich first_draw]
  /\ opennum first_draw = "3+5+8".
Proof. vm_compute. split; reflexivity. Qed.

(** *** Rejected draws *)

Lemma mismatch_writes_nothing (env : Writer.Env) (data : BaseLotteryData)
    (w : Writer.World) :
  sum_agrees data = false ->
  Writer.db (snd (Writer.processLotteryData env data w)) = Writer.db w
  /\ Writer.emitted (snd (Writer.processLotteryData env data w)) = Writer.emitted w
  /\ Writer.statistics (snd (Writer.processLotteryData env data w))
     = Writer.statistics w.
Proof.
  intros Hm. exec.
  destruct (Tracker.isNewIssue _ _); exec; [|done].
  destruct (Dedup.isProcessed _ _ _ _ _) as [[] c1]; exec; [done|].
  destruct (Lock.acquireLock _ _ _ _ _ _) as [[[] r1] l1]; exec; [|done].
  destruct (Dedup.isProcessed _ _ _ _ _) as [[] c2]; exec.
  { split_world. done. }
  pose proof (verdict_of_mismatch (Writer.conn env Writer.LastIssueRead) r1 c2 data Hm)
    as Hv.
  unfold verdict in Hv.
  destruct (LotteryValidator.validateLotteryData _ _ _ _) as [[res c3] lines]; exec.
  cbn [fst] in Hv. rewrite Hv. exec.
  split_world. unfold Writer.validation_error.
  cbn [code]. rewrite bool_decide_eq_false_2 by done. exec. done.
Qed.

(** C5.  A raw draw whose declared sum differs from the digit sum of its
    numbers is declared invalid, and processing it writes nothing: no table
    changes and no event is emitted.  A draw that passes the format checks
    and the sum check is declared valid whatever the last-issue pointer
    holds; when its issue is not above the pointer the only effect is one
    warning in the log. *)
Theorem validation_rejects_mismatch_and_only_warns_on_old_issue
    (conn : Redis.Conn) (r : Redis.Store) (cache : Dedup.Cache) (data : BaseLotteryData) :
  (sum_agrees data = false ->
   valid (verdict conn r cache data) = false
   /\ forall env w,
        Writer.db (snd (Writer.processLotteryData env data w)) = Writer.db w
        /\ Writer.emitted (snd (Writer.processLotteryData env data w))
           = Writer.emitted w)
  /\ (well_formed data = true -> sum_agrees data = true ->
      verdict conn r cache data = Validator.ok
      /\ forall last,
           fst (Dedup.getLastIssue conn r cache) = Some last ->
           last <> EmptyString ->
           Validator.isIssueIncreasing (qihao data) last = false ->
           LotteryValidator.validateLotteryData conn r cache data
           = (Validator.ok, snd (Dedup.getLastIssue conn r cache),
              [warn "期号未递增，可能是旧数据"])).
Proof.
  split.
  - intros Hm. split; [by apply verdict_of_mismatch|].
    intros env w. destruct (mismatch_writes_nothing env data w Hm) as (? & ? & ?).
    by split.
  - intros Hw Ha. split; [by apply verdict_of_valid|].
    intros last. by apply old_issue_only_warns.
Qed.

Lemma validation_rejects_mismatch_and_only_warns_on_old_issue_witness :
  (sum_agrees mismatched_draw = false
   /\ well_formed first_draw = true /\ sum_agrees first_draw = true)
  /\ valid (verdict up (Writer.redis (quiet_world "2025000" fresh_db))
                    (Writer.cache (quiet_world "2025000" fresh_db)) mismatched_draw)
     = false
  /\ verdict up
       {| Redis.seen := ∅; Redis.last_issue := Some "2025007"; Redis.locks := ∅ |}
       (Writer.cache (quiet_world "2025000" fresh_db)) first_draw
     = Validator.ok.
Proof.
  split; [repeat split; vm_compute; reflexivity|]. split.
  - destruct (validation_rejects_mismatch_and_only_warns_on_old_issue
                up (Writer.redis (quiet_world "2025000" fresh_db))
                (Writer.cache (quiet_world "2025000" fresh_db)) mismatched_draw)
      as [Hreject _].
    destruct Hreject as [Hinvalid _]; [vm_compute; reflexivity | exact Hinvalid].
  - destruct (validation_rejects_mismatch_and_only_warns_on_old_issue
                up {| Redis.seen := ∅; Redis.last_issue := Some "2025007";
                      Redis.locks := ∅ |}
                (Writer.cache (quiet_world "2025000" fresh_db)) first_draw)
      as [_ Haccept].
    destruct Haccept as [Hok _]; [vm_compute; reflexivity .. | exact Hok].
Defined.

(** The third scenario of the specification, run from start to end: the
    draw is admitted and locked, fails validation, and surfaces as a write
    error with nothing stored or emitted. *)
Example mismatch_is_dropped :
  let '(outcome, w') :=
    Writer.processLotteryData calm_env mismatched_draw (quiet_world "2025000" fresh_db) in
  (exists e, outcome = Throw e)
  /\ Writer.db w' = fresh_db /\ Writer.emitted w' = []
  /\ level <$> Writer.logs w' = [WARN; ERROR].
Proof. vm_compute. repeat split. eexists. reflexivity. Qed.

(** ** The number normalisation of the universal parser *)

Import Json.

Lemma all_forms_table :
  forallb (fun a => forallb (fun b => forallb (fun c => normalizes_all_forms a b c)
    digits) digits) digits = true.
Proof. vm_compute. reflexivity. Qed.

(** C7, as the specification states it, fails: neither "10+5+8" nor "3-5-8"
    is rejected by the normalisation. *)
Lemma normalizeNumbers_does_not_reject :
  Parser.normalizeNumbers (VStr "10+5+8") = Some "10+5+8"
  /\ Parser.normalizeNumbers (VStr "3-5-8") = Some "3+5+8".
Proof. vm_compute. split; reflexivity. Qed.

(** C7, amended.  For digits a, b, c the normalisation maps "a+b+c",
    "a,b,c", "a b c" and "abc" to the canonical "a+b+c".  It rejects neither
    "10+5+8", which it returns unchanged, nor "3-5-8", which its fallback on
    other separators turns into "3+5+8"; the validator is what rejects the
    strings "10+5+8" and "3-5-8". *)
Theorem normalizeNumbers_forms (a b c : Z) :
  0 <= a <= 9 -> 0 <= b <= 9 -> 0 <= c <= 9 ->
  (Parser.normalizeNumbers (VStr (plus_form a b c)) = Some (render a b c)
   /\ Parser.normalizeNumbers (VStr (comma_form a b c)) = Some (render a b c)
   /\ Parser.normalizeNumbers (VStr (space_form a b c)) = Some (render a b c)
   /\ Parser.normalizeNumbers (VStr (packed_form a b c)) = Some (render a b c))
  /\ Parser.normalizeNumbers (VStr "10+5+8") = Some "10+5+8"
  /\ Parser.normalizeNumbers (VStr "3-5-8") = Some "3+5+8"
  /\ valid (Validator.validateOpennum "10+5+8") = false
  /\ valid (Validator.validateOpennum "3-5-8") = false.
Proof.
  intros Ha Hb Hc. split.
  - pose proof all_forms_table as H.
    rewrite forallb_forall in H. specialize (H a (digit_in a Ha)).
    rewrite forallb_forall in H. specialize (H b (digit_in b Hb)).
    rewrite forallb_forall in H. specialize (H c (digit_in c Hc)).
    unfold normalizes_all_forms in H. cbn [forallb] in H.
    rewrite !andb_true_iff, !bool_decide_eq_true in H. tauto.
  - vm_compute. repeat split; reflexivity.
Qed.

Lemma normalizeNumbers_forms_witness :
  (0 <= 3 <= 9 /\ 0 <= 5 <= 9 /\ 0 <= 8 <= 9)
  /\ Parser.normalizeNumbers (VStr "3,5,8") = Some "3+5+8"
  /\ Parser.normalizeNumbers (VStr "358") = Some "3+5+8".
Proof.
  split; [lia|].
  destruct (normalizeNumbers_forms 3 5 8) as ((_ & Hcomma & _ & Hpacked) & _);
    [lia | lia | lia |].
  split; [exact Hcomma | exact Hpacked].
Defined.

(** ** The keno parser *)








